(** * A shallow embedding of [stock.py]

    The module models a small stock exchange: trades, common and preferred
    stocks with their dividend yield, P/E ratio and volume weighted stock
    price, and the exchange with its all share index.

    Conventions of the embedding.

    - A Python [float] is a binary64 value: Rocq's primitive [float], with
      the IEEE 754 operations the interpreter uses ([+], [*], [/], the
      comparisons).  NaN, the infinities and the two zeros are values like
      the others.  Where the demonstration passes an [int] for a price or a
      dividend (65, 100, 8) the embedding takes the float of the same value.
    - A Python [int] (a trade's quantity, a list's length) is a [Z].  In a
      mixed operation the interpreter first converts the [int] operand to
      binary64, rounding to nearest, and raises [OverflowError] when the
      [int] is too large for that: [float_of_int].
    - A [datetime] is the number of microseconds since the epoch, a [Z]; a
      [timedelta] is a number of microseconds.  An operation that reads the
      clock once has the reading for its argument [now]; the index, which
      reads it once for every stock, has the readings for its argument
      [clock], the [k]-th reading being [clock k].
    - A method is a computation over the state of its object, in the monad
      [M]: it returns a value or raises, and leaves a state behind.  *)

From Stdlib Require Import ZArith List Floats Lia Bool String Permutation.
Import ListNotations.

Open Scope Z_scope.

(* Decimal literals such as 0.02 denote the nearest binary64 value, as in
   Python. *)
Set Warnings "-inexact-float".

(** ** The interpreter: exceptions, numbers, methods *)

Module Py.

Inductive exn : Type :=
| ValueError (msg : string)
| OverflowError
| ZeroDivisionError.

(** The binary64 value nearest to an integer, ties to even; infinite when
    the integer rounds to [2^1024] or beyond. *)
Definition nearest_float (z : Z) : float :=
  SF2Prim (binary_normalize prec emax z 0 false).

(** The integers the interpreter converts to a float: those whose nearest
    binary64 value is finite. *)
Definition fits_float (z : Z) : bool := negb (is_infinity (nearest_float z)).

(** The conversion of an [int] operand to binary64: correctly rounded, and
    [OverflowError] ("int too large to convert to float") when the rounded
    value is not finite. *)
Definition float_of_int (z : Z) : exn + float :=
  if fits_float z then inr (nearest_float z) else inl OverflowError.

(** [x * z] for a float [x] and an [int] [z]. *)
Definition float_mul_int (x : float) (z : Z) : exn + float :=
  match float_of_int z with
  | inl e => inl e
  | inr y => inr (x * y)%float
  end.

(** [x / z] for a float [x] and an [int] [z]: the [int] is converted, then a
    zero divisor raises [ZeroDivisionError].  The converted divisor is zero
    exactly when the [int] is, a non-zero [int] being at least one in
    magnitude; the test is written on the [int]. *)
Definition float_div_int (x : float) (z : Z) : exn + float :=
  match float_of_int z with
  | inl e => inl e
  | inr y => if z =? 0 then inl ZeroDivisionError else inr (x / y)%float
  end.

(** [DOUBLE_IS_ODD_INTEGER] of the interpreter's [float_pow]. *)
Definition is_odd_integer (x : float) : bool :=
  match Prim2SF x with
  | S754_finite _ m e =>
      if e =? 0 then Z.odd (Zpos m)
      else if e <? 0
           then (Z.land (Zpos m) (Z.ones (- e)) =? 0)
                && Z.odd (Z.shiftr (Zpos m) (- e))
           else false
  | _ => false
  end.

Section Pow.

(** The C library's [pow], which the interpreter calls once it has
    settled the special values itself.  It stands also for the cases
    this program never reaches and that are no float in Python (a zero
    base with a negative exponent raises, a negative base with a
    fractional exponent is a complex number). *)
Variable libm_pow : float -> float -> float.

(** [iv ** iw] on floats: the special values in the order the
    interpreter tests them, then the C library. *)
Definition float_pow (iv iw : float) : float :=
  if (iw =? 0)%float then 1%float
  else if is_nan iv then iv
  else if is_nan iw then (if (iv =? 1)%float then 1%float else iw)
  else if is_infinity iw then
    let iv := abs iv in
    if (iv =? 1)%float then 1%float
    else if Bool.eqb (0 <? iw)%float (1 <? iv)%float then abs iw
    else 0%float
  else if is_infinity iv then
    if (0 <? iw)%float
    then (if is_odd_integer iw then iv else abs iv)
    else (if (is_odd_integer iw && (iv <? 0)%float)%bool
          then (-0)%float else 0%float)
  else if ((iv =? 0)%float && (0 <? iw)%float)%bool then
    (if is_odd_integer iw then iv else 0%float)
  else if (iv =? 1)%float then 1%float
  else libm_pow iv iw.

End Pow.

(** A method body: it runs on the object's state, returns a value or
    raises, and leaves a state.  What was written before a [raise] stays
    written. *)
Definition M (S A : Type) : Type := S -> (exn + A) * S.

Definition ret {S A} (a : A) : M S A := fun s => (inr a, s).

Definition bind {S A B} (m : M S A) (k : A -> M S B) : M S B :=
  fun s =>
    match m s with
    | (inr a, s') => k a s'
    | (inl e, s') => (inl e, s')
    end.

Definition get {S} : M S S := fun s => (inr s, s).

Definition put {S} (s : S) : M S unit := fun _ => (inr tt, s).

(** A constructor or a function that touches no object. *)
Definition lift {S A} (r : exn + A) : M S A := fun s => (r, s).

(** The value a call returns (or the exception) and the state it leaves. *)
Definition result {S A} (m : M S A) (s : S) : exn + A := fst (m s).
Definition state_after {S A} (m : M S A) (s : S) : S := snd (m s).

End Py.

Import Py.

Declare Scope py_scope.
Delimit Scope py_scope with py.
Notation "x <- c ;; k" := (bind c (fun x => k))
  (at level 61, c at next level, right associativity) : py_scope.
Notation "c ;;; k" := (bind c (fun _ => k))
  (at level 61, right associativity) : py_scope.
Open Scope py_scope.

(** ** Trade *)

Definition BUY : string := "BUY".
Definition SELL : string := "SELL".

Record Trade : Type := mkTrade {
  timestamp : Z;
  quantity : Z;
  indicator : string;
  price : float
}.

(** [Trade.__init__]. *)
Definition Trade_init (timestamp quantity : Z) (indicator : string)
    (price : float) : exn + Trade :=
  if ((quantity <=? 0) || (price <=? 0)%float)%bool
  then inl (ValueError "Trade quantity and price must be positive.")
  else inr (mkTrade timestamp quantity indicator price).

(** ** Stock, CommonStock, PreferredStock *)

(** The base class holds [symbol], [par_value] and [trades]; both subclasses
    add [last_dividend], the preferred one [fixed_dividend_rate] too. *)
Inductive Stock : Type :=
| Common (symbol : string) (par_value : float) (trades : list Trade)
         (last_dividend : float)
| Preferred (symbol : string) (par_value : float) (trades : list Trade)
            (last_dividend fixed_dividend_rate : float).

Definition symbol (s : Stock) : string :=
  match s with Common y _ _ _ | Preferred y _ _ _ _ => y end.

Definition par_value (s : Stock) : float :=
  match s with Common _ v _ _ | Preferred _ v _ _ _ => v end.

Definition trades (s : Stock) : list Trade :=
  match s with Common _ _ l _ | Preferred _ _ l _ _ => l end.

Definition last_dividend (s : Stock) : float :=
  match s with Common _ _ _ d | Preferred _ _ _ d _ => d end.

Definition set_trades (l : list Trade) (s : Stock) : Stock :=
  match s with
  | Common y v _ d => Common y v l d
  | Preferred y v _ d r => Preferred y v l d r
  end.

(** The two constructors: a new stock has an empty trade log. *)
Definition CommonStock (symbol : string) (par_value last_dividend : float)
    : Stock :=
  Common symbol par_value [] last_dividend.

Definition PreferredStock (symbol : string)
    (par_value last_dividend fixed_dividend_rate : float) : Stock :=
  Preferred symbol par_value [] last_dividend fixed_dividend_rate.

(** [get_dividend], as each subclass overrides it. *)
Definition get_dividend : M Stock float :=
  self <- get ;;
  match self with
  | Common _ _ _ last_dividend => ret last_dividend
  | Preferred _ par_value _ _ fixed_dividend_rate =>
      ret (fixed_dividend_rate * par_value)%float
  end.

(** [calculate_dividend_yield], as each subclass overrides it. *)
Definition calculate_dividend_yield (price : float) : M Stock (option float) :=
  self <- get ;;
  match self with
  | Common _ _ _ last_dividend =>
      if (price <=? 0)%float then ret None
      else ret (Some (last_dividend / price)%float)
  | Preferred _ par_value _ _ fixed_dividend_rate =>
      if (price <=? 0)%float then ret None
      else ret (Some ((fixed_dividend_rate * par_value) / price)%float)
  end.

(** [Stock.calculate_pe_ratio], inherited by both subclasses. *)
Definition calculate_pe_ratio (price : float) : M Stock (option float) :=
  if (price <=? 0)%float then ret None
  else
    dividend <- get_dividend ;;
    if (dividend =? 0)%float then ret None
    else ret (Some (price / dividend)%float).

(** [Stock.record_trade]: the trade is built first, with the clock's time;
    a refused trade raises before the log is touched. *)
Definition record_trade (now : Z) (quantity : Z) (indicator : string)
    (price : float) : M Stock Trade :=
  trade <- lift (Trade_init now quantity indicator price) ;;
  self <- get ;;
  put (set_trades (trades self ++ [trade]) self) ;;;
  ret trade.

(** [datetime.timedelta(minutes=m)]. *)
Definition timedelta_minutes (m : Z) : Z := m * 60 * 1000000.

(** The body of [for trade in recent_trades], on the two running totals:
    [trade.price * trade.quantity] converts the quantity and may raise. *)
Definition vwsp_step (totals : float * Z) (trade : Trade)
    : exn + (float * Z) :=
  let (total_value, total_quantity) := totals in
  match float_mul_int (price trade) (quantity trade) with
  | inl e => inl e
  | inr value =>
      inr ((total_value + value)%float, total_quantity + quantity trade)
  end.

(** The loop [for trade in recent_trades]; an exception ends it. *)
Fixpoint vwsp_loop (recent_trades : list Trade) (totals : float * Z)
    : exn + (float * Z) :=
  match recent_trades with
  | [] => inr totals
  | trade :: rest =>
      match vwsp_step totals trade with
      | inl e => inl e
      | inr totals' => vwsp_loop rest totals'
      end
  end.

(** [Stock.calculate_volume_weighted_stock_price]; [now] is the reading of
    the clock the call takes. *)
Definition calculate_volume_weighted_stock_price (now : Z)
    : M Stock (option float) :=
  self <- get ;;
  let cutoff_time := now - timedelta_minutes 5 in
  let recent_trades :=
    filter (fun t => cutoff_time <=? timestamp t) (trades self) in
  match recent_trades with
  | [] => ret None
  | _ :: _ =>
      totals <- lift (vwsp_loop recent_trades (0%float, 0)) ;;
      let (total_value, total_quantity) := totals in
      if total_quantity =? 0 then ret None
      else
        vwsp <- lift (float_div_int total_value total_quantity) ;;
        ret (Some vwsp)
  end.

(** ** StockExchange *)

(** A [dict] keeps its keys in the order of their first insertion; storing
    under a key it already has replaces the value where it stands. *)
Fixpoint dict_set {V} (k : string) (v : V) (d : list (string * V))
    : list (string * V) :=
  match d with
  | [] => [(k, v)]
  | (k', v') :: d' =>
      if String.eqb k' k then (k', v) :: d' else (k', v') :: dict_set k v d'
  end.

Fixpoint dict_get {V} (k : string) (d : list (string * V)) : option V :=
  match d with
  | [] => None
  | (k', v') :: d' => if String.eqb k' k then Some v' else dict_get k d'
  end.

Record StockExchange : Type := mkStockExchange {
  stocks : list (string * Stock)
}.

(** [StockExchange()]. *)
Definition StockExchange_init : StockExchange := mkStockExchange [].

(** [add_stock]. *)
Definition add_stock (stock : Stock) : M StockExchange unit :=
  self <- get ;;
  put (mkStockExchange (dict_set (symbol stock) stock (stocks self))).

(** [get_stock]. *)
Definition get_stock (symbol : string) : M StockExchange (option Stock) :=
  self <- get ;;
  ret (dict_get symbol (stocks self)).

(** [for stock in self.stocks.values(): acc = body(acc) on stock]: the body
    is a method call on each stock in the order of the dict, and the state
    the call leaves is the state of the stock from then on.  An exception
    ends the loop. *)
Fixpoint for_values {Acc} (body : Acc -> M Stock Acc)
    (entries : list (string * Stock)) (acc : Acc)
    : (exn + Acc) * list (string * Stock) :=
  match entries with
  | [] => (inr acc, [])
  | (k, stock) :: rest =>
      match body acc stock with
      | (inl e, stock') => (inl e, (k, stock') :: rest)
      | (inr acc', stock') =>
          let (r, rest') := for_values body rest acc' in
          (r, (k, stock') :: rest')
      end
  end.

(** The body of the first loop of [calculate_gbce_all_share_index]: the
    VWSP of the stock reads the clock for itself, so the [k]-th turn of the
    loop runs at the reading [clock k]; the turn is counted next to
    [vwsp_values]. *)
Definition index_step (clock : nat -> Z) (acc : nat * list float)
    : M Stock (nat * list float) :=
  let (k, vwsp_values) := acc in
  vwsp <- calculate_volume_weighted_stock_price (clock k) ;;
  match vwsp with
  | Some v => if (0 <? v)%float then ret (S k, vwsp_values ++ [v])
              else ret (S k, vwsp_values)
  | None => ret (S k, vwsp_values)
  end.

(** The loop, as a step of a method of the exchange. *)
Definition for_each_stock {Acc} (body : Acc -> M Stock Acc) (acc : Acc)
    : M StockExchange Acc :=
  fun self =>
    let (r, stocks') := for_values body (stocks self) acc in
    (r, mkStockExchange stocks').

(** [StockExchange.calculate_gbce_all_share_index]; [clock k] is what the
    clock reads at the [k]-th stock of the loop. *)
Definition calculate_gbce_all_share_index
    (libm_pow : float -> float -> float) (clock : nat -> Z)
    : M StockExchange (option float) :=
  acc <- for_each_stock (index_step clock) (O, []) ;;
  let vwsp_values := snd acc in
  match vwsp_values with
  | [] => ret None
  | _ :: _ =>
      let n := Z.of_nat (List.length vwsp_values) in
      let product := fold_left PrimFloat.mul vwsp_values 1%float in
      exponent <- lift (float_div_int 1 n) ;;
      ret (Some (float_pow libm_pow product exponent))
  end.

(** A clock that reads [now] at every stock of the loop. *)
Definition frozen (now : Z) : nat -> Z := fun _ => now.

(** ** The states the program builds *)

(** What the demonstration does to a trade it was handed back:
    [trade.timestamp = t]. *)
Definition set_timestamp (t : Z) (trade : Trade) : Trade :=
  mkTrade t (quantity trade) (indicator trade) (price trade).

Fixpoint backdate (i : nat) (t : Z) (l : list Trade) : list Trade :=
  match l, i with
  | [], _ => []
  | trade :: l', O => set_timestamp t trade :: l'
  | trade :: l', S i' => trade :: backdate i' t l'
  end.

(** A stock as the program can hold it: built by one of the two
    constructors, then changed by [record_trade] only, or by moving the
    timestamp of a recorded trade. *)
Inductive reachable : Stock -> Prop :=
| reach_common symbol par_value last_dividend :
    reachable (CommonStock symbol par_value last_dividend)
| reach_preferred symbol par_value last_dividend fixed_dividend_rate :
    reachable (PreferredStock symbol par_value last_dividend
                 fixed_dividend_rate)
| reach_record s now quantity indicator price :
    reachable s ->
    reachable (state_after (record_trade now quantity indicator price) s)
| reach_backdate s i t :
    reachable s ->
    reachable (set_trades (backdate i t (trades s)) s).

(** An exchange built by registering the stocks of [l], first to last. *)
Definition register (l : list Stock) : StockExchange :=
  fold_left (fun ex stock => state_after (add_stock stock) ex) l
    StockExchange_init.

(** ** The specification's reading of the results *)

(** [datetime.timedelta(minutes=5)], in microseconds. *)
Definition five_minutes : Z := 300000000.

(** A trade of the trailing five minutes, the boundary included. *)
Definition in_window (now : Z) (t : Trade) : Prop :=
  now - five_minutes <= timestamp t.

(** The trades of the log that fall in the window, in log order. *)
Fixpoint window (now : Z) (l : list Trade) : list Trade :=
  match l with
  | [] => []
  | t :: l' =>
      if Z_le_dec (now - five_minutes) (timestamp t)
      then t :: window now l' else window now l'
  end.

(** The sum of [price_i * quantity_i] and the sum of [quantity_i], over the
    trades of [l] in log order. *)
Definition traded_value (l : list Trade) : float :=
  fold_left (fun acc t => (acc + price t * nearest_float (quantity t))%float)
    l 0%float.

Definition traded_quantity (l : list Trade) : Z :=
  fold_left Z.add (map quantity l) 0.

(** Every quantity of [l] converts to a float. *)
Definition quantities_convert (l : list Trade) : bool :=
  forallb (fun t => fits_float (quantity t)) l.

(** Every quantity of [l] and their sum convert to a float. *)
Definition vwsp_converts (l : list Trade) : bool :=
  (quantities_convert l && fits_float (traded_quantity l))%bool.

(** What the VWSP comes to on the trades of the window: absent on none and
    on a zero total; [OverflowError] when a quantity or the total does not
    convert; the quotient of the two sums otherwise. *)
Definition vwsp_outcome (w : list Trade) : exn + option float :=
  match w with
  | [] => inr None
  | _ :: _ =>
      if quantities_convert w then
        if traded_quantity w =? 0 then inr None
        else if fits_float (traded_quantity w)
             then inr (Some (traded_value w
                             / nearest_float (traded_quantity w))%float)
             else inl OverflowError
      else inl OverflowError
  end.

(** The value a query returns on a state where it does not raise. *)
Definition vwsp_of (now : Z) (s : Stock) : option float :=
  match result (calculate_volume_weighted_stock_price now) s with
  | inr v => v
  | inl _ => None
  end.

(** The VWSP values the index keeps: present and strictly positive, in the
    order of the registry. *)
Fixpoint collected (now : Z) (l : list Stock) : list float :=
  match l with
  | [] => []
  | s :: l' =>
      match vwsp_of now s with
      | Some v => if (0 <? v)%float then v :: collected now l'
                  else collected now l'
      | None => collected now l'
      end
  end.

(** The same at the readings of a clock, the first stock of [l] at
    [clock k]. *)
Fixpoint collected_at (clock : nat -> Z) (k : nat) (l : list Stock)
    : list float :=
  match l with
  | [] => []
  | s :: l' =>
      match vwsp_of (clock k) s with
      | Some v => if (0 <? v)%float then v :: collected_at clock (S k) l'
                  else collected_at clock (S k) l'
      | None => collected_at clock (S k) l'
      end
  end.

(** The VWSP of a stock raises at the reading [now]. *)
Definition vwsp_raises (now : Z) (s : Stock) : bool :=
  match result (calculate_volume_weighted_stock_price now) s with
  | inl _ => true
  | inr _ => false
  end.

(** The VWSP of some stock of [l] raises at its reading of the clock. *)
Fixpoint any_raises (clock : nat -> Z) (k : nat) (l : list Stock) : bool :=
  match l with
  | [] => false
  | s :: l' => (vwsp_raises (clock k) s || any_raises clock (S k) l')%bool
  end.

(** The product of the [n] values, taken left to right from [1.0], raised
    to [1.0 / n]. *)
Definition geometric_mean (libm_pow : float -> float -> float)
    (values : list float) : exn + float :=
  match float_div_int 1 (Z.of_nat (List.length values)) with
  | inl e => inl e
  | inr exponent =>
      inr (float_pow libm_pow (fold_left PrimFloat.mul values 1%float)
             exponent)
  end.

(** What the index comes to on the values it kept. *)
Definition index_outcome (libm_pow : float -> float -> float)
    (values : list float) : exn + option float :=
  match values with
  | [] => inr None
  | _ :: _ =>
      match geometric_mean libm_pow values with
      | inl e => inl e
      | inr x => inr (Some x)
      end
  end.

(** The dividend of a stock, by variant. *)
Definition dividend (s : Stock) : float :=
  match s with
  | Common _ _ _ last_dividend => last_dividend
  | Preferred _ par_value _ _ fixed_dividend_rate =>
      (fixed_dividend_rate * par_value)%float
  end.

(** The stocks of the registry, in its order. *)
Definition registered (ex : StockExchange) : list Stock :=
  map snd (stocks ex).

(** ** Sample states *)

(** A reading of the clock: 2023-11-14 22:13:20 UTC. *)
Definition sample_now : Z := 1700000000000000.

(** The stock ALE of the demonstration: one trade six minutes old, one a
    minute old, one just recorded. *)
Definition sample_ale : Stock :=
  let s0 := CommonStock "ALE" 60 23 in
  let s1 := state_after (record_trade sample_now 50 BUY 65) s0 in
  let s2 :=
    set_trades (backdate 0 (sample_now - timedelta_minutes 6) (trades s1)) s1 in
  let s3 :=
    state_after (record_trade (sample_now - timedelta_minutes 1) 100 BUY 70) s2 in
  state_after (record_trade sample_now 50 SELL 72) s3.

(** A stock with one trade of one share at [price], just recorded. *)
Definition one_trade_stock (symbol : string) (price : float) : Stock :=
  state_after (record_trade sample_now 1 BUY price)
    (CommonStock symbol 100 0).




(** Two stocks whose prices are [4] and [0.25], in two orders. *)
Definition four_quarter : list Stock :=
  [one_trade_stock "TEA" 4; one_trade_stock "POP" 0.25].


(** The exchange of the demonstration once every stock but ALE has one
    trade: TEA at 98, POP at 122, GIN at 105, JOE at 240. *)
Definition sample_gbce : StockExchange :=
  register
    [state_after (record_trade sample_now 1000 BUY 98)
       (CommonStock "TEA" 100 0);
     state_after (record_trade sample_now 500 SELL 122)
       (CommonStock "POP" 100 8);
     state_after (record_trade sample_now 200 BUY 105)
       (PreferredStock "GIN" 100 8 0.02);
     state_after (record_trade sample_now 300 SELL 240)
       (CommonStock "JOE" 250 13)].

(** A stock with one trade of [2^1024] shares, and one with two trades of
    [2^1023] shares each, at a price of [1.0], just recorded. *)
Definition sample_huge_stock : Stock :=
  state_after (record_trade sample_now (2 ^ 1024) BUY 1)
    (CommonStock "BIG" 100 0).

Definition sample_two_halves : Stock :=
  state_after (record_trade sample_now (2 ^ 1023) SELL 1)
    (state_after (record_trade sample_now (2 ^ 1023) BUY 1)
       (CommonStock "BIG" 100 0)).

(** A stand-in for the C library where its value is not looked at. *)
Definition no_libm (x y : float) : float := x.

(** ** Further operations and readings *)

(** [Stock.__repr__], which both subclasses inherit: the symbol is a [str]
    and goes into the f-string as it is. *)
Definition Stock_repr (s : Stock) : string :=
  ("Stock('" ++ symbol s ++ "')")%string.

(** A run of [record_trade] calls on one stock, each with its clock reading;
    a call that raises leaves the stock to the next call as [record_trade]
    left it. *)
Definition record_trades (calls : list (Z * Z * string * float)) (s : Stock)
    : Stock :=
  fold_left
    (fun s call =>
       let '(now, quantity, indicator, price) := call in
       state_after (record_trade now quantity indicator price) s)
    calls s.

(** The trades the constructor builds for the calls it accepts, in call
    order. *)
Definition accepted_trades (calls : list (Z * Z * string * float))
    : list Trade :=
  flat_map
    (fun call =>
       let '(now, quantity, indicator, price) := call in
       match Trade_init now quantity indicator price with
       | inr trade => [trade]
       | inl _ => []
       end)
    calls.

(** The log without its [i]-th trade. *)
Fixpoint drop_nth (i : nat) (l : list Trade) : list Trade :=
  match l, i with
  | [], _ => []
  | _ :: l', O => l'
  | trade :: l', S i' => trade :: drop_nth i' l'
  end.

(** What the VWSP reads of a trade. *)
Definition quantity_price (t : Trade) : Z * float := (quantity t, price t).

(** The recent trades of a stock as the VWSP reads them. *)
Definition recent_quantity_price (now : Z) (s : Stock) : list (Z * float) :=
  map quantity_price (window now (trades s)).

(** The stock registered last under [y] among the stocks of [l]. *)
Definition last_registered (y : string) (l : list Stock) : option Stock :=
  find (fun s => String.eqb (symbol s) y) (rev l).

(** The keys of the registry, in its order. *)
Definition keys (ex : StockExchange) : list string := map fst (stocks ex).

(** A preferred stock with the recent trades of [sample_ale], the sides
    exchanged, and no older trade. *)
Definition sample_ale_twin : Stock :=
  Preferred "GIN" 100
    [mkTrade (sample_now - timedelta_minutes 1) 100 SELL 70;
     mkTrade sample_now 50 BUY 72] 8 0.02.

(** The VWSP as a function of what it reads of the recent trades. *)
Definition vwsp_of_quantity_price (l : list (Z * float))
    : exn + option float :=
  match l with
  | [] => inr None
  | _ :: _ =>
      let total_quantity := fold_left Z.add (map fst l) 0 in
      let total_value :=
        fold_left
          (fun acc qp => (acc + snd qp * nearest_float (fst qp))%float)
          l 0%float in
      if forallb (fun qp => fits_float (fst qp)) l then
        if total_quantity =? 0 then inr None
        else if fits_float total_quantity
             then inr (Some (total_value / nearest_float total_quantity)%float)
             else inl OverflowError
      else inl OverflowError
  end.

(** Two stocks under the symbol POP, for a registration that replaces. *)
Definition sample_pop_old : Stock := CommonStock "POP" 100 8.
Definition sample_pop_new : Stock := one_trade_stock "POP" 122.

(** A float that is NaN. *)
Definition is_NaN (x : float) : Prop := Prim2SF x = S754_nan.

(** A stock whose one trade, just recorded, has NaN for its price. *)
Definition sample_nan_stock : Stock := one_trade_stock "NAN" nan.

(** * Properties *)

(** ** Binary64 comparisons *)

Lemma Prim2SF_zero : Prim2SF 0%float = S754_zero false.
Proof. reflexivity. Qed.

(** A float above zero is not at or below zero. *)
Lemma ltb_0_not_leb_0 (x : float) :
  (0 <? x)%float = true -> (x <=? 0)%float = false.
Proof.
  rewrite ltb_spec, leb_spec, Prim2SF_zero.
  destruct (Prim2SF x) as [[|]|[|]| |[|] m e]; cbn; congruence.
Qed.

(** A float that is not at or below zero is above zero, or is NaN. *)
Lemma not_leb_0_cases (x : float) :
  (x <=? 0)%float = false ->
  (0 <? x)%float = true \/ Prim2SF x = S754_nan.
Proof.
  rewrite ltb_spec, leb_spec, Prim2SF_zero.
  destruct (Prim2SF x) as [[|]|[|]| |[|] m e]; cbn; auto; congruence.
Qed.

(** ** The monad *)

Lemma bind_ret_l {S A B} (a : A) (k : A -> M S B) (s : S) :
  bind (ret a) k s = k a s.
Proof. reflexivity. Qed.

Lemma bind_get {S B} (k : S -> M S B) (s : S) : bind get k s = k s s.
Proof. reflexivity. Qed.

(** ** The trade log *)

Lemma filter_window (now : Z) (l : list Trade) :
  filter (fun t => now - timedelta_minutes 5 <=? timestamp t) l
  = window now l.
Proof.
  induction l as [|t l IH]; simpl; [reflexivity|].
  change (timedelta_minutes 5) with five_minutes in *.
  destruct (Z_le_dec (now - five_minutes) (timestamp t)) as [H|H].
  - apply Z.leb_le in H. rewrite H, IH. reflexivity.
  - apply Z.leb_nle in H. rewrite H, IH. reflexivity.
Qed.

Lemma in_window_iff (now : Z) (l : list Trade) (t : Trade) :
  In t (window now l) <-> In t l /\ in_window now t.
Proof.
  unfold in_window.
  induction l as [|a l IH]; simpl; [tauto|].
  destruct (Z_le_dec (now - five_minutes) (timestamp a)) as [H|H]; simpl;
    rewrite IH; intuition (subst; auto; try contradiction).
Qed.

Lemma window_incl (now : Z) (l : list Trade) (P : Trade -> Prop) :
  Forall P l -> Forall P (window now l).
Proof.
  intros H. apply Forall_forall. intros t Ht.
  apply in_window_iff in Ht. destruct Ht as [Ht _].
  revert t Ht. apply Forall_forall. exact H.
Qed.

Lemma float_of_int_run (z : Z) :
  float_of_int z
  = if fits_float z then inr (nearest_float z) else inl OverflowError.
Proof. reflexivity. Qed.

Lemma float_div_int_run (x : float) (z : Z) :
  z <> 0 ->
  float_div_int x z
  = if fits_float z then inr (x / nearest_float z)%float
    else inl OverflowError.
Proof.
  intros Hz. unfold float_div_int, float_of_int.
  apply Z.eqb_neq in Hz. destruct (fits_float z); [rewrite Hz|]; reflexivity.
Qed.

(** The loop of the VWSP keeps the two totals side by side, and stops at
    the first quantity that does not convert. *)
Lemma vwsp_loop_run (l : list Trade) (v : float) (q : Z) :
  vwsp_loop l (v, q)
  = if quantities_convert l
    then inr (fold_left
                (fun acc t =>
                   (acc + price t * nearest_float (quantity t))%float) l v,
              fold_left Z.add (map quantity l) q)
    else inl OverflowError.
Proof.
  revert v q. induction l as [|t l IH]; intros v q; [reflexivity|].
  cbn [vwsp_loop quantities_convert forallb fold_left map].
  unfold vwsp_step, float_mul_int, float_of_int.
  destruct (fits_float (quantity t)); [|reflexivity].
  rewrite IH. reflexivity.
Qed.

Lemma fold_add_shift (l : list Z) (a : Z) :
  fold_left Z.add l a = a + fold_left Z.add l 0.
Proof.
  revert a. induction l as [|x l IH]; intros a; simpl; [lia|].
  rewrite (IH (a + x)), (IH x). lia.
Qed.

Lemma traded_quantity_cons (t : Trade) (l : list Trade) :
  traded_quantity (t :: l) = quantity t + traded_quantity l.
Proof.
  unfold traded_quantity. simpl. apply fold_add_shift.
Qed.

Lemma traded_quantity_nonneg (l : list Trade) :
  Forall (fun t => 0 < quantity t) l -> 0 <= traded_quantity l.
Proof.
  induction 1 as [|t l Ht _ IH]; [unfold traded_quantity; simpl; lia|].
  rewrite traded_quantity_cons. lia.
Qed.

Lemma traded_quantity_pos (l : list Trade) :
  Forall (fun t => 0 < quantity t) l -> l <> [] -> 0 < traded_quantity l.
Proof.
  intros H Hne. destruct H as [|t l Ht Hl]; [congruence|].
  rewrite traded_quantity_cons.
  pose proof (traded_quantity_nonneg l Hl). lia.
Qed.

(** What [calculate_volume_weighted_stock_price] computes, on any stock. *)
Lemma vwsp_run (now : Z) (s : Stock) :
  calculate_volume_weighted_stock_price now s
  = (vwsp_outcome (window now (trades s)), s).
Proof.
  unfold calculate_volume_weighted_stock_price.
  rewrite bind_get, filter_window.
  destruct (window now (trades s)) as [|t w] eqn:E; [reflexivity|].
  unfold bind, lift. rewrite vwsp_loop_run. unfold vwsp_outcome.
  destruct (quantities_convert (t :: w)); [|reflexivity].
  fold (traded_value (t :: w)). fold (traded_quantity (t :: w)).
  destruct (traded_quantity (t :: w) =? 0) eqn:Ez; [reflexivity|].
  apply Z.eqb_neq in Ez. rewrite (float_div_int_run _ _ Ez).
  destruct (fits_float (traded_quantity (t :: w))); reflexivity.
Qed.

Lemma result_vwsp (now : Z) (s : Stock) :
  result (calculate_volume_weighted_stock_price now) s
  = vwsp_outcome (window now (trades s)).
Proof. unfold result. rewrite vwsp_run. reflexivity. Qed.

Lemma state_after_vwsp (now : Z) (s : Stock) :
  state_after (calculate_volume_weighted_stock_price now) s = s.
Proof. unfold state_after. rewrite vwsp_run. reflexivity. Qed.

(** The VWSP raises nothing but [OverflowError]. *)
Lemma vwsp_outcome_error (w : list Trade) (e : exn) :
  vwsp_outcome w = inl e -> e = OverflowError.
Proof.
  unfold vwsp_outcome. destruct w as [|t w]; [discriminate|].
  destruct (quantities_convert (t :: w)); [|congruence].
  destruct (traded_quantity (t :: w) =? 0); [discriminate|].
  destruct (fits_float (traded_quantity (t :: w))); congruence.
Qed.

(** On positive quantities the VWSP is absent on an empty window only, and
    otherwise the quotient or [OverflowError]. *)
Lemma vwsp_outcome_pos (w : list Trade) :
  Forall (fun t => 0 < quantity t) w ->
  vwsp_outcome w
  = match w with
    | [] => inr None
    | _ :: _ =>
        if vwsp_converts w
        then inr (Some (traded_value w
                        / nearest_float (traded_quantity w))%float)
        else inl OverflowError
    end.
Proof.
  intros H. destruct w as [|t w]; [reflexivity|].
  assert (Hpos : 0 < traded_quantity (t :: w))
    by (apply traded_quantity_pos; [exact H | discriminate]).
  apply Z.lt_neq, not_eq_sym, Z.eqb_neq in Hpos.
  unfold vwsp_outcome, vwsp_converts. rewrite Hpos.
  destruct (quantities_convert (t :: w)); reflexivity.
Qed.

(** ** Reachable stocks hold accepted trades *)

Lemma Trade_init_inr (ts q : Z) (ind : string) (p : float) (t : Trade) :
  Trade_init ts q ind p = inr t ->
  t = mkTrade ts q ind p /\ 0 < q /\ (p <=? 0)%float = false.
Proof.
  unfold Trade_init. intros H.
  destruct (q <=? 0) eqn:Hq; simpl in H; [discriminate|].
  destruct (p <=? 0)%float eqn:Hp; [discriminate|].
  apply Z.leb_gt in Hq. injection H as <-. auto.
Qed.

Lemma trades_set_trades (l : list Trade) (s : Stock) :
  trades (set_trades l s) = l.
Proof. destruct s; reflexivity. Qed.

Lemma backdate_quantities (i : nat) (ts : Z) (l : list Trade) :
  Forall (fun t => 0 < quantity t) l ->
  Forall (fun t => 0 < quantity t) (backdate i ts l).
Proof.
  intros H. revert i.
  induction H as [|t l Ht Hl IH]; intros [|i]; simpl; constructor;
    solve [exact Ht | exact Hl | apply IH].
Qed.

Lemma record_trade_run (now q : Z) (ind : string) (p : float) (s : Stock) :
  record_trade now q ind p s
  = match Trade_init now q ind p with
    | inl e => (inl e, s)
    | inr t => (inr t, set_trades (trades s ++ [t]) s)
    end.
Proof.
  unfold record_trade, bind, lift.
  destruct (Trade_init now q ind p); reflexivity.
Qed.

Lemma reachable_quantities (s : Stock) :
  reachable s -> Forall (fun t => 0 < quantity t) (trades s).
Proof.
  induction 1 as [| |s now q ind p _ IH|s i ts _ IH]; simpl; auto.
  - unfold state_after. rewrite record_trade_run.
    destruct (Trade_init now q ind p) as [e|t] eqn:E; simpl; [exact IH|].
    rewrite trades_set_trades. apply Forall_app. split; [exact IH|].
    apply Trade_init_inr in E. destruct E as (-> & Hq & _).
    constructor; [exact Hq | constructor].
  - rewrite trades_set_trades. apply backdate_quantities. exact IH.
Qed.

(** ** The registry *)

Lemma vwsp_of_outcome (now : Z) (s : Stock) :
  vwsp_of now s
  = match vwsp_outcome (window now (trades s)) with
    | inr v => v
    | inl _ => None
    end.
Proof. unfold vwsp_of. rewrite result_vwsp. reflexivity. Qed.

Lemma vwsp_raises_outcome (now : Z) (s : Stock) :
  vwsp_raises now s
  = match vwsp_outcome (window now (trades s)) with
    | inl _ => true
    | inr _ => false
    end.
Proof. unfold vwsp_raises. rewrite result_vwsp. reflexivity. Qed.

(** The result of the VWSP, from the two readings of it. *)
Lemma result_vwsp_cases (now : Z) (s : Stock) :
  result (calculate_volume_weighted_stock_price now) s
  = if vwsp_raises now s then inl OverflowError else inr (vwsp_of now s).
Proof.
  rewrite vwsp_raises_outcome, vwsp_of_outcome, result_vwsp.
  destruct (vwsp_outcome (window now (trades s))) as [e|v] eqn:E;
    [|reflexivity].
  rewrite (vwsp_outcome_error _ _ E). reflexivity.
Qed.

Lemma index_step_run (clock : nat -> Z) (k : nat) (acc : list float)
    (s : Stock) :
  index_step clock (k, acc) s
  = (if vwsp_raises (clock k) s then inl OverflowError
     else inr (S k, acc ++ collected (clock k) [s]), s).
Proof.
  unfold index_step, bind.
  pose proof (result_vwsp_cases (clock k) s) as Hr.
  pose proof (state_after_vwsp (clock k) s) as Hs.
  unfold result, state_after in Hr, Hs.
  destruct (calculate_volume_weighted_stock_price (clock k) s) as [r s'].
  simpl in Hr, Hs. subst r s'. simpl collected.
  destruct (vwsp_raises (clock k) s); [reflexivity|].
  destruct (vwsp_of (clock k) s) as [v|]; [destruct (0 <? v)%float|];
    unfold ret; rewrite ?app_nil_r; reflexivity.
Qed.

Lemma collected_cons (now : Z) (s : Stock) (l : list Stock) :
  collected now (s :: l) = collected now [s] ++ collected now l.
Proof.
  simpl. destruct (vwsp_of now s) as [v|]; [destruct (0 <? v)%float|];
    reflexivity.
Qed.

Lemma collected_at_cons (clock : nat -> Z) (k : nat) (s : Stock)
    (l : list Stock) :
  collected_at clock k (s :: l)
  = collected (clock k) [s] ++ collected_at clock (S k) l.
Proof.
  simpl. destruct (vwsp_of (clock k) s) as [v|]; [destruct (0 <? v)%float|];
    reflexivity.
Qed.

(** The first loop of the index visits the stocks in turn, each at its
    reading of the clock; it stops at the first whose VWSP raises, and
    otherwise keeps the VWSP values that are present and positive.  Either
    way it gives every stock back as it was. *)
Lemma for_values_index_step (clock : nat -> Z)
    (entries : list (string * Stock)) (k : nat) (acc : list float) :
  for_values (index_step clock) entries (k, acc)
  = (if any_raises clock k (map snd entries) then inl OverflowError
     else inr ((k + List.length entries)%nat,
               acc ++ collected_at clock k (map snd entries)),
     entries).
Proof.
  revert k acc.
  induction entries as [|[y s] rest IH]; intros k acc; simpl map.
  - simpl. rewrite app_nil_r, Nat.add_0_r. reflexivity.
  - cbn [for_values any_raises]. rewrite index_step_run.
    destruct (vwsp_raises (clock k) s); [reflexivity|].
    rewrite IH. simpl orb.
    destruct (any_raises clock (S k) (map snd rest)); [reflexivity|].
    rewrite (collected_at_cons clock k s (map snd rest)), app_assoc.
    simpl List.length. rewrite Nat.add_succ_r. reflexivity.
Qed.

(** What [calculate_gbce_all_share_index] computes, on any exchange. *)
Lemma index_run (libm_pow : float -> float -> float) (clock : nat -> Z)
    (ex : StockExchange) :
  calculate_gbce_all_share_index libm_pow clock ex
  = (if any_raises clock 0 (registered ex) then inl OverflowError
     else index_outcome libm_pow (collected_at clock 0 (registered ex)),
     ex).
Proof.
  destruct ex as [entries].
  unfold calculate_gbce_all_share_index, bind, for_each_stock. simpl stocks.
  rewrite for_values_index_step. unfold registered. simpl stocks.
  destruct (any_raises clock 0 (map snd entries)); [reflexivity|].
  simpl snd. rewrite app_nil_l.
  unfold index_outcome, geometric_mean.
  destruct (collected_at clock 0 (map snd entries)) as [|v vs];
    [reflexivity|].
  cbn [snd]. unfold bind, lift.
  destruct (float_div_int 1 (Z.of_nat (List.length (v :: vs))));
    reflexivity.
Qed.





Lemma collected_In (now : Z) (l : list Stock) (v : float) :
  In v (collected now l) <->
  exists s, In s l /\ vwsp_of now s = Some v /\ (0 <? v)%float = true.
Proof.
  induction l as [|s l IH].
  - simpl. split; [tauto | intros (s & [] & _)].
  - rewrite collected_cons, in_app_iff, IH. simpl.
    destruct (vwsp_of now s) as [w|] eqn:E.
    + destruct (0 <? w)%float eqn:Hw; simpl.
      * split.
        -- intros [[<-|[]]|(s' & Hs' & H)]; [exists s; auto | exists s'; auto].
        -- intros (s' & [<-|Hs'] & Hv & Hp).
           ++ left. left. congruence.
           ++ right. exists s'. auto.
      * split.
        -- intros [[]|(s' & Hs' & H)]. exists s'; auto.
        -- intros (s' & [<-|Hs'] & Hv & Hp).
           ++ congruence.
           ++ right. exists s'. auto.
    + simpl. split.
      * intros [[]|(s' & Hs' & H)]. exists s'; auto.
      * intros (s' & [<-|Hs'] & Hv & Hp).
        -- congruence.
        -- right. exists s'. auto.
Qed.


Lemma dict_set_fresh {V} (k : string) (v : V) (d : list (string * V)) :
  ~ In k (map fst d) -> dict_set k v d = d ++ [(k, v)].
Proof.
  induction d as [|[k' v'] d IH]; simpl; intros H; [reflexivity|].
  destruct (String.eqb_spec k' k) as [->|Hne]; [tauto|].
  rewrite IH; [reflexivity | tauto].
Qed.



(** ** Trade *)


(** An accepted trade has a positive quantity, and a price that is above
    zero or is NaN. *)
Lemma Trade_init_accepted (ts q : Z) (ind : string) (p : float) (t : Trade) :
  Trade_init ts q ind p = inr t ->
  0 < quantity t /\
  ((0 <? price t)%float = true \/ Prim2SF (price t) = S754_nan).
Proof.
  intros H. apply Trade_init_inr in H. destruct H as (-> & Hq & Hp). simpl.
  split; [exact Hq | apply not_leb_0_cases, Hp].
Qed.

(** C3, at the input where the code departs from it: a trade whose price is
    NaN is accepted, although its price is not above zero. *)
Theorem Trade_init_accepts_nan_price :
  Trade_init sample_now 1 BUY nan = inr (mkTrade sample_now 1 BUY nan) /\
  (0 <? price (mkTrade sample_now 1 BUY nan))%float = false.
Proof. split; reflexivity. Qed.

(** ** Dividend, yield and P/E ratio *)

Lemma get_dividend_run (s : Stock) : get_dividend s = (inr (dividend s), s).
Proof. destruct s; reflexivity. Qed.

(** What [calculate_dividend_yield] computes, on any stock. *)
Lemma dividend_yield_run (p : float) (s : Stock) :
  calculate_dividend_yield p s
  = (inr (if (p <=? 0)%float then None else Some (dividend s / p)%float), s).
Proof.
  unfold calculate_dividend_yield. rewrite bind_get.
  destruct s; simpl; destruct (p <=? 0)%float; reflexivity.
Qed.

(** What [calculate_pe_ratio] computes, on any stock. *)
Lemma pe_ratio_run (p : float) (s : Stock) :
  calculate_pe_ratio p s
  = (inr (if ((p <=? 0)%float || (dividend s =? 0)%float)%bool then None
          else Some (p / dividend s)%float), s).
Proof.
  unfold calculate_pe_ratio.
  destruct (p <=? 0)%float; [reflexivity|].
  unfold bind. rewrite get_dividend_run. simpl orb.
  destruct (dividend s =? 0)%float; reflexivity.
Qed.

(** C4: the P/E ratio is absent when the price is at or below zero or the
    dividend of the stock (the last dividend of a common stock, the fixed
    rate times the par value of a preferred one) equals zero; otherwise it
    is the price divided by the dividend. *)
Theorem calculate_pe_ratio_spec (s : Stock) (p : float) :
  result (calculate_pe_ratio p) s
  = inr (if ((p <=? 0)%float || (dividend s =? 0)%float)%bool then None
         else Some (p / dividend s)%float).
Proof. unfold result. rewrite pe_ratio_run. reflexivity. Qed.

(** C5: the dividend yield is absent at a price at or below zero, for both
    variants; at a price above zero it is the last dividend over the price
    for a common stock, and the fixed rate times the par value over the
    price for a preferred one. *)
Theorem calculate_dividend_yield_spec (p : float) :
  (forall s, (p <=? 0)%float = true ->
     result (calculate_dividend_yield p) s = inr None) /\
  (forall y v l d, (0 <? p)%float = true ->
     result (calculate_dividend_yield p) (Common y v l d)
     = inr (Some (d / p)%float)) /\
  (forall y v l d r, (0 <? p)%float = true ->
     result (calculate_dividend_yield p) (Preferred y v l d r)
     = inr (Some ((r * v) / p)%float)).
Proof.
  unfold result. split; [|split].
  - intros s H. rewrite dividend_yield_run, H. reflexivity.
  - intros y v l d H.
    rewrite dividend_yield_run, (ltb_0_not_leb_0 p H). reflexivity.
  - intros y v l d r H.
    rewrite dividend_yield_run, (ltb_0_not_leb_0 p H). reflexivity.
Qed.

(** C7: two preferred stocks that differ in [last_dividend] only have the
    same dividend, the same yield and the same P/E ratio at every price, and
    the dividend is the fixed rate times the par value. *)
Theorem preferred_ignores_last_dividend (y : string) (v : float)
    (l : list Trade) (d d' r : float) (p : float) :
  result get_dividend (Preferred y v l d r)
  = result get_dividend (Preferred y v l d' r) /\
  result (calculate_dividend_yield p) (Preferred y v l d r)
  = result (calculate_dividend_yield p) (Preferred y v l d' r) /\
  result (calculate_pe_ratio p) (Preferred y v l d r)
  = result (calculate_pe_ratio p) (Preferred y v l d' r) /\
  result get_dividend (Preferred y v l d r) = inr (r * v)%float.
Proof.
  unfold result.
  rewrite !get_dividend_run, !dividend_yield_run, !pe_ratio_run.
  simpl. auto.
Qed.

(** ** Recording a trade *)

(** C6: with [quantity <= 0] or [price <= 0], [record_trade] raises the
    constructor's error and leaves the stock, its log included, as it was;
    otherwise it returns the trade built from its arguments and the clock's
    time, and leaves the stock with that one trade appended to the log and
    nothing else changed. *)
Theorem record_trade_atomic (now q : Z) (ind : string) (p : float)
    (s : Stock) :
  ((q <= 0 \/ (p <=? 0)%float = true) ->
     record_trade now q ind p s
     = (inl (ValueError "Trade quantity and price must be positive."), s)) /\
  ((0 < q /\ (p <=? 0)%float = false) ->
     let t := mkTrade now q ind p in
     record_trade now q ind p s = (inr t, set_trades (trades s ++ [t]) s) /\
     trades (state_after (record_trade now q ind p) s) = trades s ++ [t] /\
     symbol (state_after (record_trade now q ind p) s) = symbol s /\
     par_value (state_after (record_trade now q ind p) s) = par_value s /\
     last_dividend (state_after (record_trade now q ind p) s)
     = last_dividend s).
Proof.
  unfold state_after. rewrite record_trade_run. unfold Trade_init. split.
  - intros [H|H].
    + apply Z.leb_le in H. rewrite H. reflexivity.
    + rewrite H, orb_true_r. reflexivity.
  - intros [Hq Hp]. apply Z.leb_gt in Hq. rewrite Hq, Hp. simpl.
    destruct s; simpl; auto.
Qed.

(** ** Volume weighted stock price *)

(** C9, as the code has it: when every trade of the log has a positive
    quantity and some trade falls in the window, the total quantity the
    loop ends with is positive, so the test [total_quantity == 0] fails,
    the VWSP is not absent and the division never divides by zero: it
    gives the quotient when every quantity of the window and their total
    convert to a float, and [OverflowError] is raised when one does not. *)
Theorem vwsp_total_quantity_positive (now : Z) (s : Stock) :
  Forall (fun t => 0 < quantity t) (trades s) ->
  let recent_trades :=
    filter (fun t => now - timedelta_minutes 5 <=? timestamp t) (trades s) in
  recent_trades <> [] ->
  (forall totals,
     vwsp_loop recent_trades (0%float, 0) = inr totals ->
     0 < snd totals /\ (snd totals =? 0) = false) /\
  0 < traded_quantity recent_trades /\
  result (calculate_volume_weighted_stock_price now) s <> inr None /\
  result (calculate_volume_weighted_stock_price now) s
  <> inl ZeroDivisionError /\
  result (calculate_volume_weighted_stock_price now) s
  = if vwsp_converts recent_trades
    then inr (Some (traded_value recent_trades
                    / nearest_float (traded_quantity recent_trades))%float)
    else inl OverflowError.
Proof.
  intros Hq recent_trades Hne. subst recent_trades.
  rewrite filter_window in *.
  assert (Hw : Forall (fun t => 0 < quantity t) (window now (trades s)))
    by (apply window_incl, Hq).
  assert (Hpos : 0 < traded_quantity (window now (trades s)))
    by (apply traded_quantity_pos; [exact Hw | exact Hne]).
  assert (Hres : result (calculate_volume_weighted_stock_price now) s
                 = if vwsp_converts (window now (trades s))
                   then inr (Some (traded_value (window now (trades s))
                                   / nearest_float
                                       (traded_quantity
                                          (window now (trades s))))%float)
                   else inl OverflowError).
  { rewrite result_vwsp, (vwsp_outcome_pos _ Hw).
    destruct (window now (trades s)); [congruence | reflexivity]. }
  split; [|split; [exact Hpos|]].
  - intros totals Ht. rewrite vwsp_loop_run in Ht.
    destruct (quantities_convert (window now (trades s))); [|discriminate].
    injection Ht as <-. simpl snd.
    fold (traded_quantity (window now (trades s))).
    split; [exact Hpos | apply Z.eqb_neq; lia].
  - rewrite Hres.
    destruct (vwsp_converts (window now (trades s)));
      repeat split; discriminate || reflexivity.
Qed.

(** C1, as the code has it: the VWSP of a stock takes the trades of its log
    whose timestamp is at or after [now] minus five minutes, the boundary
    included; it is absent when there is none; otherwise it is the sum of
    price times quantity over these trades divided by the sum of their
    quantities when each of these quantities and their sum convert to a
    float, and [OverflowError] is raised when one does not. *)
Theorem vwsp_windowed_average (now : Z) (s : Stock) :
  reachable s ->
  (forall t, In t (window now (trades s)) <->
             In t (trades s) /\ in_window now t) /\
  result (calculate_volume_weighted_stock_price now) s
  = match window now (trades s) with
    | [] => inr None
    | w =>
        if vwsp_converts w
        then inr (Some (traded_value w
                        / nearest_float (traded_quantity w))%float)
        else inl OverflowError
    end.
Proof.
  intros Hr. split; [intros t; apply in_window_iff|].
  rewrite result_vwsp, vwsp_outcome_pos
    by (apply window_incl, reachable_quantities, Hr).
  destruct (window now (trades s)); reflexivity.
Qed.

(** ** All share index *)

Lemma collected_at_In (clock : nat -> Z) (k : nat) (l : list Stock)
    (v : float) :
  In v (collected_at clock k l) <->
  exists i s, nth_error l i = Some s /\
              vwsp_of (clock (k + i)%nat) s = Some v /\
              (0 <? v)%float = true.
Proof.
  revert k. induction l as [|s l IH]; intros k.
  - simpl. split; [tauto | intros ([|i] & s & H & _); discriminate].
  - rewrite collected_at_cons, in_app_iff, IH. split.
    + intros [H|(i & s' & Hn & Hv & Hp)].
      * apply collected_In in H. destruct H as (s' & [<-|[]] & Hv & Hp).
        exists O, s. rewrite Nat.add_0_r. auto.
      * exists (S i), s'. rewrite Nat.add_succ_r. auto.
    + intros ([|i] & s' & Hn & Hv & Hp); simpl in Hn.
      * injection Hn as <-. rewrite Nat.add_0_r in Hv. left.
        apply collected_In. exists s. simpl. auto.
      * right. exists i, s'. rewrite Nat.add_succ_r in Hv. auto.
Qed.

Lemma any_raises_iff (clock : nat -> Z) (k : nat) (l : list Stock) :
  any_raises clock k l = true <->
  exists i s, nth_error l i = Some s /\
              vwsp_raises (clock (k + i)%nat) s = true.
Proof.
  revert k. induction l as [|s l IH]; intros k; simpl.
  - split; [discriminate | intros ([|i] & s & H & _); discriminate].
  - rewrite orb_true_iff, IH. split.
    + intros [H|(i & s' & Hn & Hv)].
      * exists O, s. rewrite Nat.add_0_r. auto.
      * exists (S i), s'. rewrite Nat.add_succ_r. auto.
    + intros ([|i] & s' & Hn & Hv); simpl in Hn.
      * injection Hn as <-. rewrite Nat.add_0_r in Hv. auto.
      * right. exists i, s'. rewrite Nat.add_succ_r in Hv. auto.
Qed.

Lemma index_outcome_run (libm_pow : float -> float -> float)
    (values : list float) :
  index_outcome libm_pow values
  = match values with
    | [] => inr None
    | _ :: _ =>
        let n := Z.of_nat (List.length values) in
        if fits_float n
        then inr (Some (float_pow libm_pow
                          (fold_left PrimFloat.mul values 1%float)
                          (1 / nearest_float n)%float))
        else inl OverflowError
    end.
Proof.
  destruct values as [|v vs]; [reflexivity|].
  unfold index_outcome, geometric_mean.
  rewrite float_div_int_run by (simpl List.length; lia).
  cbv zeta. destruct (fits_float (Z.of_nat (List.length (v :: vs))));
    reflexivity.
Qed.

(** C2, as the code has it: the index takes the VWSP of the stocks of the
    registry in turn, each at its own reading of the clock.  When one of
    them raises [OverflowError] the index raises it.  Otherwise the index
    keeps the VWSP values that are present and above zero; it is absent
    when it kept none, and otherwise it is the product of the [n] values
    kept raised to [1.0 / n]. *)
Theorem index_geometric_mean (libm_pow : float -> float -> float)
    (clock : nat -> Z) (ex : StockExchange) :
  (forall v, In v (collected_at clock 0 (registered ex)) <->
             exists k s, nth_error (registered ex) k = Some s /\
                         vwsp_of (clock k) s = Some v /\
                         (0 <? v)%float = true) /\
  (any_raises clock 0 (registered ex) = true <->
   exists k s e, nth_error (registered ex) k = Some s /\
                 result (calculate_volume_weighted_stock_price (clock k)) s
                 = inl e) /\
  result (calculate_gbce_all_share_index libm_pow clock) ex
  = if any_raises clock 0 (registered ex) then inl OverflowError
    else match collected_at clock 0 (registered ex) with
         | [] => inr None
         | values =>
             let n := Z.of_nat (List.length values) in
             if fits_float n
             then inr (Some (float_pow libm_pow
                               (fold_left PrimFloat.mul values 1%float)
                               (1 / nearest_float n)%float))
             else inl OverflowError
         end.
Proof.
  split; [intros v; apply (collected_at_In clock 0)|]. split.
  - rewrite any_raises_iff. split.
    + intros (k & s & Hn & Hr). exists k, s. simpl in Hr.
      unfold vwsp_raises in Hr.
      destruct (result (calculate_volume_weighted_stock_price (clock k)) s)
        as [e|v] eqn:E; [|discriminate].
      exists e. auto.
    + intros (k & s & e & Hn & Hr). exists k, s. simpl.
      unfold vwsp_raises. rewrite Hr. auto.
  - unfold result. rewrite index_run. simpl fst.
    destruct (any_raises clock 0 (registered ex)); [reflexivity|].
    rewrite index_outcome_run.
    destruct (collected_at clock 0 (registered ex)); reflexivity.
Qed.


(** ** Queries change nothing *)

(** C10: the dividend yield, the P/E ratio and the VWSP leave the stock
    they are called on as it was, trade log and fields, and the index
    leaves the exchange as it was, registry and registered stocks. *)
Theorem queries_leave_state_unchanged (libm_pow : float -> float -> float)
    (now : Z) (clock : nat -> Z) (p : float) (s : Stock)
    (ex : StockExchange) :
  state_after (calculate_dividend_yield p) s = s /\
  state_after (calculate_pe_ratio p) s = s /\
  state_after (calculate_volume_weighted_stock_price now) s = s /\
  state_after (calculate_gbce_all_share_index libm_pow clock) ex = ex.
Proof.
  unfold state_after.
  rewrite dividend_yield_run, pe_ratio_run, vwsp_run, index_run.
  simpl. auto.
Qed.

(** ** The properties at the sample states *)

Lemma reachable_sample_ale : reachable sample_ale.
Proof.
  unfold sample_ale. cbv zeta.
  apply reach_record, reach_record, reach_backdate, reach_record,
    reach_common.
Defined.


(** The stock ALE of the demonstration: the trade six minutes old is left
    out, and the VWSP is [(70*100 + 72*50) / 150]. *)
Lemma vwsp_windowed_average_witness :
  reachable sample_ale /\
  result (calculate_volume_weighted_stock_price sample_now) sample_ale
  = inr (Some ((0 + 70 * 100 + 72 * 50) / 150)%float).
Proof.
  split; [exact reachable_sample_ale|].
  exact (proj2 (vwsp_windowed_average sample_now sample_ale
                  reachable_sample_ale)).
Defined.

Lemma Trade_init_accepted_witness :
  0 < quantity (mkTrade sample_now 50 BUY 65) /\
  ((0 <? price (mkTrade sample_now 50 BUY 65))%float = true \/
   Prim2SF (price (mkTrade sample_now 50 BUY 65)) = S754_nan).
Proof.
  apply (Trade_init_accepted sample_now 50 BUY 65). reflexivity.
Defined.

Lemma vwsp_total_quantity_positive_witness :
  0 < traded_quantity
        (filter (fun t => sample_now - timedelta_minutes 5 <=? timestamp t)
           (trades sample_ale)) /\
  result (calculate_volume_weighted_stock_price sample_now) sample_ale
  = inr (Some ((0 + 70 * 100 + 72 * 50) / 150)%float).
Proof.
  refine ((fun H => conj (proj1 (proj2 H)) (proj2 (proj2 (proj2 (proj2 H)))))
            (vwsp_total_quantity_positive sample_now sample_ale _ _)).
  - repeat (constructor; [reflexivity|]). constructor.
  - discriminate.
Defined.

(** C1 as the specification states it fails: a stock with one trade of
    [2^1024] shares, recorded through [record_trade], has that trade in its
    window, and its VWSP is neither absent nor a quotient: the call raises
    [OverflowError]. *)
Lemma vwsp_raises_on_huge_quantity :
  reachable sample_huge_stock /\
  window sample_now (trades sample_huge_stock)
  = [mkTrade sample_now (2 ^ 1024) BUY 1] /\
  result (calculate_volume_weighted_stock_price sample_now) sample_huge_stock
  = inl OverflowError.
Proof.
  split; [apply reach_record, reach_common|].
  split; vm_compute; reflexivity.
Qed.

(** C9 as the specification states it fails: with two trades of [2^1023]
    shares, both positive and both in the window, the loop ends with a
    total of [2^1024], and the final division raises [OverflowError]. *)
Lemma vwsp_division_overflows :
  Forall (fun t => 0 < quantity t) (trades sample_two_halves) /\
  vwsp_loop
    (filter (fun t => sample_now - timedelta_minutes 5 <=? timestamp t)
       (trades sample_two_halves)) (0%float, 0)
  = inr (infinity, 2 ^ 1024) /\
  float_div_int infinity (2 ^ 1024) = inl OverflowError /\
  result (calculate_volume_weighted_stock_price sample_now) sample_two_halves
  = inl OverflowError.
Proof.
  split; [repeat (constructor; [reflexivity|]); constructor|].
  repeat split; vm_compute; reflexivity.
Qed.

(** C2 as the specification states it fails: on an exchange that holds the
    stock with one trade of [2^1024] shares, the index is neither absent
    nor a geometric mean: the call raises [OverflowError]. *)
Lemma index_raises_on_huge_quantity :
  reachable sample_huge_stock /\
  result (calculate_gbce_all_share_index no_libm (frozen sample_now))
    (register [sample_huge_stock])
  = inl OverflowError.
Proof.
  split; [apply reach_record, reach_common | vm_compute; reflexivity].
Qed.

(** Scenario 1 and 2 of the specification: the yields at a price of 110. *)
Lemma calculate_dividend_yield_spec_witness :
  result (calculate_dividend_yield 110) (CommonStock "POP" 100 8)
  = inr (Some (8 / 110)%float) /\
  result (calculate_dividend_yield 110) (PreferredStock "GIN" 100 8 0.02)
  = inr (Some ((0.02 * 100) / 110)%float) /\
  result (calculate_dividend_yield 0) (CommonStock "POP" 100 8) = inr None.
Proof.
  pose proof (calculate_dividend_yield_spec 110) as (_ & Hc & Hp).
  pose proof (calculate_dividend_yield_spec 0) as (Hz & _).
  split; [|split].
  - apply Hc. reflexivity.
  - apply Hp. reflexivity.
  - apply Hz. reflexivity.
Defined.

Lemma record_trade_atomic_witness :
  record_trade sample_now 0 BUY 65 sample_ale
  = (inl (ValueError "Trade quantity and price must be positive."),
     sample_ale) /\
  trades (state_after (record_trade sample_now 50 BUY 65) sample_ale)
  = trades sample_ale ++ [mkTrade sample_now 50 BUY 65].
Proof.
  split.
  - apply (proj1 (record_trade_atomic sample_now 0 BUY 65 sample_ale)).
    left. discriminate.
  - apply (proj2 (record_trade_atomic sample_now 50 BUY 65 sample_ale)).
    split; reflexivity.
Defined.




(** ** The scenarios of the specification *)

Example scenario_common_yield_and_pe :
  result (calculate_dividend_yield 110) (CommonStock "POP" 100 8)
  = inr (Some 0.072727272727272724%float) /\
  result (calculate_pe_ratio 110) (CommonStock "POP" 100 8)
  = inr (Some 13.75%float).
Proof. split; reflexivity. Qed.

Example scenario_preferred_yield_and_pe :
  result get_dividend (PreferredStock "GIN" 100 8 0.02) = inr 2%float /\
  result (calculate_dividend_yield 110) (PreferredStock "GIN" 100 8 0.02)
  = inr (Some 0.018181818181818181%float) /\
  result (calculate_pe_ratio 110) (PreferredStock "GIN" 100 8 0.02)
  = inr (Some 55%float).
Proof. repeat split; reflexivity. Qed.

Example scenario_zero_dividend_pe :
  result (calculate_pe_ratio 110) (CommonStock "TEA" 100 0) = inr None.
Proof. reflexivity. Qed.

Example scenario_vwsp :
  result (calculate_volume_weighted_stock_price sample_now) sample_ale
  = inr (Some 70.666666666666671%float).
Proof. reflexivity. Qed.

Example scenario_index (libm_pow : float -> float -> float) :
  result (calculate_gbce_all_share_index libm_pow (frozen sample_now))
    sample_gbce
  = inr (Some (libm_pow 301291200 0.25)%float).
Proof. reflexivity. Qed.

Example scenario_empty_index (libm_pow : float -> float -> float)
    (clock : nat -> Z) :
  result (calculate_gbce_all_share_index libm_pow clock)
    StockExchange_init = inr None /\
  result (calculate_gbce_all_share_index libm_pow clock)
    (register [CommonStock "TEA" 100 0; CommonStock "POP" 100 8]) = inr None.
Proof. split; reflexivity. Qed.

(** The conversion of an [int] to a float at its boundary: the largest
    [int] that converts is [2^1024 - 2^970 - 1], which rounds to the largest
    finite float; [2^1024 - 2^970] rounds to [2^1024] and raises. *)
Example float_of_int_boundary :
  float_of_int (2 ^ 1024 - 2 ^ 970 - 1)
  = inr 0x1.fffffffffffffp+1023%float /\
  float_of_int (2 ^ 1024 - 2 ^ 970) = inl OverflowError /\
  float_of_int (2 ^ 53 + 1) = inr 9007199254740992%float /\
  float_of_int (- (2 ^ 1024)) = inl OverflowError.
Proof. repeat split; vm_compute; reflexivity. Qed.

Example float_div_int_zero :
  float_div_int 1 0 = inl ZeroDivisionError /\
  float_div_int 1 4 = inr 0.25%float.
Proof. split; vm_compute; reflexivity. Qed.

(** * Further properties of the code *)

(** ** The registry: [add_stock] and [get_stock] *)

Lemma dict_get_set {V} (k y : string) (v : V) (d : list (string * V)) :
  dict_get y (dict_set k v d)
  = if String.eqb k y then Some v else dict_get y d.
Proof.
  induction d as [|[k' v'] d IH]; simpl.
  - reflexivity.
  - destruct (String.eqb_spec k' k) as [->|Hk]; simpl.
    + destruct (String.eqb k y); reflexivity.
    + rewrite IH. destruct (String.eqb_spec k' y) as [->|Hy]; [|reflexivity].
      apply String.eqb_neq in Hk. rewrite String.eqb_sym, Hk. reflexivity.
Qed.

Lemma add_stock_run (s : Stock) (ex : StockExchange) :
  add_stock s ex
  = (inr tt, mkStockExchange (dict_set (symbol s) s (stocks ex))).
Proof. reflexivity. Qed.

Lemma get_stock_run (y : string) (ex : StockExchange) :
  get_stock y ex = (inr (dict_get y (stocks ex)), ex).
Proof. reflexivity. Qed.

Lemma register_snoc (l : list Stock) (s : Stock) :
  register (l ++ [s]) = state_after (add_stock s) (register l).
Proof. unfold register. rewrite fold_left_app. reflexivity. Qed.

(** Looking a stock up under its symbol right after adding it gives that
    stock, whatever the exchange held. *)
Theorem get_stock_after_add_stock (s : Stock) (ex : StockExchange) :
  result (get_stock (symbol s)) (state_after (add_stock s) ex)
  = inr (Some s).
Proof.
  unfold result, state_after. rewrite add_stock_run, get_stock_run. simpl.
  rewrite dict_get_set, String.eqb_refl. reflexivity.
Qed.

(** Adding a stock changes the lookup of no other symbol. *)
Theorem get_stock_other_after_add_stock (s : Stock) (ex : StockExchange)
    (y : string) :
  y <> symbol s ->
  result (get_stock y) (state_after (add_stock s) ex)
  = result (get_stock y) ex.
Proof.
  intros Hy. unfold result, state_after.
  rewrite add_stock_run, !get_stock_run. simpl. rewrite dict_get_set.
  destruct (String.eqb_spec (symbol s) y) as [E|_]; [congruence|reflexivity].
Qed.

Lemma find_snoc {A} (f : A -> bool) (l : list A) (a : A) :
  find f (l ++ [a])
  = match find f l with
    | Some x => Some x
    | None => if f a then Some a else None
    end.
Proof.
  induction l as [|x l IH]; simpl; [reflexivity|].
  destruct (f x); [reflexivity | exact IH].
Qed.

(** After any run of registrations, a symbol looks up the stock registered
    last under it, and nothing when no stock was registered under it (so
    nothing at all on a new exchange). *)
Theorem get_stock_register (l : list Stock) (y : string) :
  result (get_stock y) (register l) = inr (last_registered y l).
Proof.
  unfold last_registered.
  induction l as [|s l IH] using rev_ind; [reflexivity|].
  rewrite register_snoc, rev_app_distr. simpl.
  unfold result, state_after in *.
  rewrite add_stock_run, get_stock_run in *. simpl in *.
  rewrite dict_get_set.
  destruct (String.eqb (symbol s) y); [reflexivity | exact IH].
Qed.

Lemma dict_set_keys {V} (k : string) (v : V) (d : list (string * V)) :
  map fst (dict_set k v d)
  = if existsb (String.eqb k) (map fst d) then map fst d
    else map fst d ++ [k].
Proof.
  induction d as [|[k' v'] d IH]; simpl; [reflexivity|].
  rewrite (String.eqb_sym k k').
  destruct (String.eqb_spec k' k) as [->|Hk]; simpl; [reflexivity|].
  rewrite IH. destruct (existsb (String.eqb k) (map fst d)); reflexivity.
Qed.

Lemma existsb_eqb_In (k : string) (l : list string) :
  existsb (String.eqb k) l = true <-> In k l.
Proof.
  rewrite existsb_exists. split.
  - intros (x & Hx & E). apply String.eqb_eq in E. subst. exact Hx.
  - intros H. exists k. split; [exact H | apply String.eqb_refl].
Qed.

Lemma dict_set_In {V} (k : string) (v : V) (d : list (string * V))
    (k' : string) (v' : V) :
  In (k', v') (dict_set k v d) -> (k', v') = (k, v) \/ In (k', v') d.
Proof.
  induction d as [|[k0 v0] d IH]; simpl.
  - intros [H|[]]. left. congruence.
  - destruct (String.eqb_spec k0 k) as [->|Hk]; simpl.
    + intros [H|H]; [left; congruence | right; right; exact H].
    + intros [H|H]; [right; left; exact H|].
      destruct (IH H) as [E|E]; [left; exact E | right; right; exact E].
Qed.

(** The registry after any run of registrations: its keys are distinct,
    every key is the symbol of the stock stored under it, every stored stock
    is one of those registered, and the keys are the symbols registered. *)
Theorem register_keys (l : list Stock) :
  NoDup (keys (register l)) /\
  (forall k s, In (k, s) (stocks (register l)) -> k = symbol s /\ In s l) /\
  (forall y, In y (keys (register l)) <-> In y (map symbol l)).
Proof.
  unfold keys.
  induction l as [|a l (Hnd & Hin & Hk)] using rev_ind.
  - simpl. repeat split; try constructor; try contradiction; tauto.
  - rewrite register_snoc. unfold state_after. rewrite add_stock_run.
    simpl snd. simpl stocks. rewrite dict_set_keys.
    destruct (existsb (String.eqb (symbol a)) (map fst (stocks (register l))))
      eqn:E.
    + apply existsb_eqb_In in E. split; [exact Hnd|]. split.
      * intros k s H. apply dict_set_In in H. destruct H as [H|H].
        -- injection H as -> ->. split; [reflexivity|].
           apply in_or_app. right. left. reflexivity.
        -- destruct (Hin k s H) as [-> Hs]. split; [reflexivity|].
           apply in_or_app. left. exact Hs.
      * intros y. rewrite map_app, in_app_iff, Hk. simpl.
        split; [tauto|]. intros [H|[<-|[]]]; [exact H|].
        apply Hk. exact E.
    + assert (Hfresh : ~ In (symbol a) (map fst (stocks (register l)))).
      { intros H. apply existsb_eqb_In in H. congruence. }
      split; [|split].
      * apply NoDup_app; [exact Hnd | repeat constructor; simpl; tauto |].
        intros x Hx [<-|[]]. exact (Hfresh Hx).
      * intros k s H. apply dict_set_In in H. destruct H as [H|H].
        -- injection H as -> ->. split; [reflexivity|].
           apply in_or_app. right. left. reflexivity.
        -- destruct (Hin k s H) as [-> Hs]. split; [reflexivity|].
           apply in_or_app. left. exact Hs.
      * intros y. rewrite !map_app, !in_app_iff, Hk. simpl. tauto.
Qed.

(** Adding a stock under a symbol the registry has keeps the keys and their
    order; under a new symbol it puts the stock last. *)
Theorem add_stock_keeps_order (s : Stock) (ex : StockExchange) :
  (In (symbol s) (keys ex) ->
     keys (state_after (add_stock s) ex) = keys ex) /\
  (~ In (symbol s) (keys ex) ->
     stocks (state_after (add_stock s) ex) = stocks ex ++ [(symbol s, s)]).
Proof.
  unfold keys, state_after. rewrite add_stock_run. simpl. split.
  - intros H. rewrite dict_set_keys.
    apply existsb_eqb_In in H. rewrite H. reflexivity.
  - apply dict_set_fresh.
Qed.

Lemma dict_set_set {V} (k : string) (v1 v2 : V) (d : list (string * V)) :
  dict_set k v2 (dict_set k v1 d) = dict_set k v2 d.
Proof.
  induction d as [|[k' v'] d IH]; simpl.
  - rewrite String.eqb_refl. reflexivity.
  - destruct (String.eqb_spec k' k) as [->|Hk]; simpl.
    + rewrite String.eqb_refl. reflexivity.
    + apply String.eqb_neq in Hk. rewrite Hk, IH. reflexivity.
Qed.

(** A registration under the symbol of the one before it overrides it: the
    exchange is as if the earlier stock had never been added.  Adding one
    stock twice is adding it once. *)
Theorem add_stock_overrides (s1 s2 : Stock) (ex : StockExchange) :
  symbol s1 = symbol s2 ->
  state_after (add_stock s2) (state_after (add_stock s1) ex)
  = state_after (add_stock s2) ex.
Proof.
  intros E. unfold state_after. rewrite !add_stock_run. simpl.
  rewrite E, dict_set_set. reflexivity.
Qed.

Lemma collected_app (now : Z) (l1 l2 : list Stock) :
  collected now (l1 ++ l2) = collected now l1 ++ collected now l2.
Proof.
  induction l1 as [|s l1 IH]; [reflexivity|].
  rewrite <- app_comm_cons, (collected_cons now s (l1 ++ l2)),
    (collected_cons now s l1), IH, app_assoc.
  reflexivity.
Qed.

Lemma collected_at_app (clock : nat -> Z) (k : nat) (l1 l2 : list Stock) :
  collected_at clock k (l1 ++ l2)
  = collected_at clock k l1
    ++ collected_at clock (k + List.length l1)%nat l2.
Proof.
  revert k. induction l1 as [|s l1 IH]; intros k.
  - simpl. rewrite Nat.add_0_r. reflexivity.
  - rewrite <- app_comm_cons, (collected_at_cons clock k s (l1 ++ l2)),
      (collected_at_cons clock k s l1), IH, app_assoc.
    simpl List.length. rewrite Nat.add_succ_r. reflexivity.
Qed.

Lemma any_raises_app (clock : nat -> Z) (k : nat) (l1 l2 : list Stock) :
  any_raises clock k (l1 ++ l2)
  = (any_raises clock k l1
     || any_raises clock (k + List.length l1)%nat l2)%bool.
Proof.
  revert k. induction l1 as [|s l1 IH]; intros k.
  - simpl. rewrite Nat.add_0_r. reflexivity.
  - simpl. rewrite IH, Nat.add_succ_r, orb_assoc. reflexivity.
Qed.

Lemma registered_add_fresh (s : Stock) (ex : StockExchange) :
  ~ In (symbol s) (keys ex) ->
  registered (state_after (add_stock s) ex) = registered ex ++ [s].
Proof.
  intros Hfresh. unfold registered, state_after. rewrite add_stock_run.
  simpl snd. simpl stocks. rewrite dict_set_fresh by exact Hfresh.
  rewrite map_app. reflexivity.
Qed.

(** A stock registered under a new symbol is the last of the loop: what the
    index makes of the stocks before it is what it made of them without
    it, and the new stock is read at the reading that follows theirs. *)
Lemma index_add_fresh (libm_pow : float -> float -> float)
    (clock : nat -> Z) (s : Stock) (ex : StockExchange) :
  ~ In (symbol s) (keys ex) ->
  vwsp_raises (clock (List.length (stocks ex))) s = false ->
  collected (clock (List.length (stocks ex))) [s] = [] ->
  result (calculate_gbce_all_share_index libm_pow clock)
    (state_after (add_stock s) ex)
  = result (calculate_gbce_all_share_index libm_pow clock) ex.
Proof.
  intros Hfresh Hr Hc. unfold result. rewrite !index_run. simpl fst.
  rewrite registered_add_fresh by exact Hfresh.
  rewrite any_raises_app, collected_at_app. simpl Nat.add.
  unfold registered at 2 4. rewrite length_map.
  cbn [any_raises]. rewrite Hr. simpl orb. rewrite orb_false_r.
  rewrite (collected_at_cons clock _ s []), Hc. simpl. rewrite app_nil_r.
  reflexivity.
Qed.

(** Registering, under a new symbol, a stock with no trade in the five
    minutes before the reading of the clock the index takes at it (the one
    after the readings for the stocks already there) leaves the index as
    it was. *)
Theorem index_ignores_silent_stock (libm_pow : float -> float -> float)
    (clock : nat -> Z) (s : Stock) (ex : StockExchange) :
  ~ In (symbol s) (keys ex) ->
  window (clock (List.length (stocks ex))) (trades s) = [] ->
  result (calculate_gbce_all_share_index libm_pow clock)
    (state_after (add_stock s) ex)
  = result (calculate_gbce_all_share_index libm_pow clock) ex.
Proof.
  intros Hfresh Hw. apply index_add_fresh; [exact Hfresh | |].
  - rewrite vwsp_raises_outcome, Hw. reflexivity.
  - simpl. rewrite vwsp_of_outcome, Hw. reflexivity.
Qed.

(** ** What the VWSP and the index read *)

Lemma traded_value_reads (l : list Trade) (acc : float) :
  fold_left (fun acc t => (acc + price t * nearest_float (quantity t))%float)
    l acc
  = fold_left (fun acc qp => (acc + snd qp * nearest_float (fst qp))%float)
      (map quantity_price l) acc.
Proof.
  revert acc. induction l as [|t l IH]; intros acc; simpl;
    [reflexivity | apply IH].
Qed.

Lemma quantities_convert_reads (l : list Trade) :
  quantities_convert l
  = forallb (fun qp => fits_float (fst qp)) (map quantity_price l).
Proof.
  unfold quantities_convert.
  induction l as [|t l IH]; simpl; [reflexivity | rewrite IH; reflexivity].
Qed.

Lemma result_vwsp_reads (now : Z) (s : Stock) :
  result (calculate_volume_weighted_stock_price now) s
  = vwsp_of_quantity_price (recent_quantity_price now s).
Proof.
  rewrite result_vwsp. unfold recent_quantity_price.
  destruct (window now (trades s)) as [|t w]; [reflexivity|].
  unfold vwsp_outcome, vwsp_of_quantity_price, traded_quantity, traded_value.
  rewrite traded_value_reads, quantities_convert_reads, map_map.
  reflexivity.
Qed.

(** The VWSP reads the quantities and prices of the trades of the last five
    minutes and nothing else: two stocks that agree on these, in log order,
    have the same VWSP, whatever their older trades, the sides and times of
    their trades, their kind, symbol, par value and dividends. *)
Theorem vwsp_reads_recent_quantity_price (now : Z) (s1 s2 : Stock) :
  recent_quantity_price now s1 = recent_quantity_price now s2 ->
  result (calculate_volume_weighted_stock_price now) s1
  = result (calculate_volume_weighted_stock_price now) s2.
Proof.
  intros H. rewrite !result_vwsp_reads, H. reflexivity.
Qed.

Lemma index_reads_at (clock : nat -> Z) (k : nat) (l1 l2 : list Stock) :
  List.length l1 = List.length l2 ->
  (forall i s1 s2,
     nth_error l1 i = Some s1 -> nth_error l2 i = Some s2 ->
     recent_quantity_price (clock (k + i)%nat) s1
     = recent_quantity_price (clock (k + i)%nat) s2) ->
  any_raises clock k l1 = any_raises clock k l2 /\
  collected_at clock k l1 = collected_at clock k l2.
Proof.
  revert k l2. induction l1 as [|s1 l1 IH]; intros k [|s2 l2] Hlen H;
    try discriminate; [split; reflexivity|].
  assert (Hs : result (calculate_volume_weighted_stock_price (clock k)) s1
               = result (calculate_volume_weighted_stock_price (clock k)) s2).
  { rewrite !result_vwsp_reads.
    specialize (H O s1 s2 eq_refl eq_refl). rewrite Nat.add_0_r in H.
    rewrite H. reflexivity. }
  destruct (IH (S k) l2) as [Hr Hc].
  - simpl in Hlen. congruence.
  - intros i a b Ha Hb. specialize (H (S i) a b Ha Hb).
    rewrite Nat.add_succ_r in H. exact H.
  - split.
    + simpl. unfold vwsp_raises. rewrite Hs, Hr. reflexivity.
    + rewrite (collected_at_cons clock k s1 l1),
        (collected_at_cons clock k s2 l2), Hc.
      simpl. unfold vwsp_of. rewrite Hs. reflexivity.
Qed.

(** The index reads the same and nothing else: two exchanges with as many
    stocks, whose stocks agree, position by position in the registry and
    each at the reading of the clock the index takes at that position, on
    the quantities and prices of their recent trades, have the same
    index. *)
Theorem index_reads_recent_quantity_price
    (libm_pow : float -> float -> float) (clock : nat -> Z)
    (ex1 ex2 : StockExchange) :
  List.length (registered ex1) = List.length (registered ex2) ->
  (forall k s1 s2,
     nth_error (registered ex1) k = Some s1 ->
     nth_error (registered ex2) k = Some s2 ->
     recent_quantity_price (clock k) s1
     = recent_quantity_price (clock k) s2) ->
  result (calculate_gbce_all_share_index libm_pow clock) ex1
  = result (calculate_gbce_all_share_index libm_pow clock) ex2.
Proof.
  intros Hlen H. unfold result. rewrite !index_run. simpl fst.
  destruct (index_reads_at clock 0 (registered ex1) (registered ex2) Hlen H)
    as [-> ->].
  reflexivity.
Qed.

(** ** The trade log *)

Lemma set_trades_set_trades (l1 l2 : list Trade) (s : Stock) :
  set_trades l2 (set_trades l1 s) = set_trades l2 s.
Proof. destruct s; reflexivity. Qed.

Lemma set_trades_same (s : Stock) : set_trades (trades s) s = s.
Proof. destruct s; reflexivity. Qed.

Lemma record_trades_run (calls : list (Z * Z * string * float))
    (s : Stock) :
  record_trades calls s = set_trades (trades s ++ accepted_trades calls) s.
Proof.
  unfold record_trades. revert s.
  induction calls as [|[[[now q] ind] p] calls IH]; intros s.
  - simpl. rewrite app_nil_r, set_trades_same. reflexivity.
  - cbn [fold_left accepted_trades flat_map]. rewrite IH.
    unfold state_after. rewrite record_trade_run.
    destruct (Trade_init now q ind p) as [e|t]; [reflexivity|].
    simpl snd. rewrite trades_set_trades, set_trades_set_trades.
    rewrite <- app_assoc. reflexivity.
Qed.

(** Whatever calls of [record_trade] a stock receives, accepted or refused,
    its log afterwards is the log before followed by the trades of the
    accepted calls, in call order, and nothing else of the stock changes:
    the log only grows, at its end. *)
Theorem record_trades_log (calls : list (Z * Z * string * float))
    (s : Stock) :
  record_trades calls s = set_trades (trades s ++ accepted_trades calls) s /\
  trades (record_trades calls s) = trades s ++ accepted_trades calls.
Proof.
  split; [apply record_trades_run|].
  rewrite record_trades_run. apply trades_set_trades.
Qed.

Lemma Trade_init_fields (ts q : Z) (ind : string) (p : float) :
  0 < q -> (p <=? 0)%float = false ->
  Trade_init ts q ind p = inr (mkTrade ts q ind p).
Proof.
  intros Hq Hp. unfold Trade_init.
  apply Z.leb_gt in Hq. rewrite Hq, Hp. reflexivity.
Qed.

Lemma backdate_Forall (P : Trade -> Prop) (i : nat) (ts : Z)
    (l : list Trade) :
  (forall t, P t -> P (set_timestamp ts t)) ->
  Forall P l -> Forall P (backdate i ts l).
Proof.
  intros HP H. revert i.
  induction H as [|t l Ht Hl IH]; intros [|i]; simpl; constructor;
    solve [apply HP, Ht | exact Ht | exact Hl | apply IH].
Qed.

(** Every trade in the log of a stock the program builds is one the
    constructor accepts: built again from its own fields it is returned,
    not refused.  Moving its timestamp does not change that. *)
Theorem reachable_trades_accepted (s : Stock) :
  reachable s ->
  Forall (fun t =>
            Trade_init (timestamp t) (quantity t) (indicator t) (price t)
            = inr t)
    (trades s).
Proof.
  induction 1 as [| |s now q ind p _ IH|s i ts _ IH]; simpl; auto.
  - unfold state_after. rewrite record_trade_run.
    destruct (Trade_init now q ind p) as [e|t] eqn:E; simpl; [exact IH|].
    rewrite trades_set_trades. apply Forall_app. split; [exact IH|].
    apply Trade_init_inr in E. destruct E as (-> & Hq & Hp).
    constructor; [|constructor]. simpl. apply Trade_init_fields; assumption.
  - rewrite trades_set_trades. apply backdate_Forall; [|exact IH].
    intros [ts0 q0 ind0 p0] H. simpl in *.
    apply Trade_init_inr in H. destruct H as (_ & Hq & Hp).
    apply Trade_init_fields; assumption.
Qed.

(** A trade just recorded on a stock the program built is in the window of
    its VWSP for the five minutes that follow, and the VWSP is then not
    absent: it is the quotient of the two sums when every quantity of the
    window and their total convert to a float, and [OverflowError] is
    raised when one does not. *)
Theorem vwsp_present_after_record_trade (now t q : Z) (ind : string)
    (p : float) (s : Stock) :
  reachable s ->
  0 < q -> (p <=? 0)%float = false ->
  t - five_minutes <= now ->
  let s' := state_after (record_trade now q ind p) s in
  let w := window t (trades s') in
  In (mkTrade now q ind p) w /\
  result (calculate_volume_weighted_stock_price t) s' <> inr None /\
  result (calculate_volume_weighted_stock_price t) s'
  = if vwsp_converts w
    then inr (Some (traded_value w / nearest_float (traded_quantity w))%float)
    else inl OverflowError.
Proof.
  intros Hr Hq Hp Ht s' w.
  assert (Hall : Forall (fun t => 0 < quantity t) (trades s'))
    by (apply reachable_quantities, reach_record, Hr).
  assert (Hin : In (mkTrade now q ind p) w).
  { apply in_window_iff. split; [|exact Ht].
    subst s'. unfold state_after. rewrite record_trade_run.
    rewrite (Trade_init_fields now q ind p Hq Hp). simpl snd.
    rewrite trades_set_trades. apply in_or_app. right. left. reflexivity. }
  assert (Hres : result (calculate_volume_weighted_stock_price t) s'
                 = if vwsp_converts w
                   then inr (Some (traded_value w
                                   / nearest_float (traded_quantity w))%float)
                   else inl OverflowError).
  { rewrite result_vwsp, vwsp_outcome_pos by (apply window_incl, Hall).
    fold w. destruct w; [contradiction | reflexivity]. }
  split; [exact Hin|]. split; [|exact Hres].
  rewrite Hres. destruct (vwsp_converts w); discriminate.
Qed.

Lemma window_backdate (now ts : Z) (i : nat) (l : list Trade) :
  ts < now - five_minutes ->
  window now (backdate i ts l) = window now (drop_nth i l).
Proof.
  intros Hts. revert i. induction l as [|t l IH]; intros [|i]; simpl;
    try reflexivity.
  - destruct (Z_le_dec (now - five_minutes) ts); [lia | reflexivity].
  - rewrite IH. reflexivity.
Qed.

(** Moving the timestamp of a recorded trade to more than five minutes ago,
    as the demonstration does with its old trade, takes the trade out of the
    VWSP: the VWSP is that of the log without it. *)
Theorem backdated_trade_leaves_vwsp (now ts : Z) (i : nat) (s : Stock) :
  ts < now - five_minutes ->
  result (calculate_volume_weighted_stock_price now)
    (set_trades (backdate i ts (trades s)) s)
  = result (calculate_volume_weighted_stock_price now)
      (set_trades (drop_nth i (trades s)) s).
Proof.
  intros Hts. rewrite !result_vwsp, !trades_set_trades.
  rewrite (window_backdate now ts i (trades s) Hts). reflexivity.
Qed.

(** ** P/E ratio and yield together *)

(** The P/E ratio is absent exactly when the yield at the same price is
    absent or the dividend equals zero. *)
Theorem pe_ratio_absent_iff (p : float) (s : Stock) :
  result (calculate_pe_ratio p) s = inr None <->
  result (calculate_dividend_yield p) s = inr None \/
  (exists d, result get_dividend s = inr d /\ (d =? 0)%float = true).
Proof.
  unfold result. rewrite pe_ratio_run, dividend_yield_run, get_dividend_run.
  simpl. destruct (p <=? 0)%float; simpl.
  - split; auto.
  - destruct (dividend s =? 0)%float eqn:E.
    + split; [|reflexivity]. intros _. right. exists (dividend s). auto.
    + split; [discriminate|]. intros [H|(d & Hd & Hz)]; [discriminate|].
      injection Hd as <-. congruence.
Qed.

(** ** The printed name of a stock *)

Lemma string_length_append (a b : string) :
  String.length (a ++ b) = (String.length a + String.length b)%nat.
Proof. induction a as [|c a IH]; simpl; [reflexivity | rewrite IH; reflexivity]. Qed.

Lemma string_append_inv_tail (a b t : string) :
  (a ++ t = b ++ t)%string -> a = b.
Proof.
  revert b. induction a as [|c a IH]; intros [|c' b] H; simpl in H.
  - reflexivity.
  - apply (f_equal String.length) in H. simpl in H.
    rewrite string_length_append in H. lia.
  - apply (f_equal String.length) in H. simpl in H.
    rewrite string_length_append in H. lia.
  - injection H as -> H. rewrite (IH b H). reflexivity.
Qed.

(** The printed name of a stock shows its symbol and nothing else: two
    stocks print alike exactly when they have the same symbol, be they
    common or preferred. *)
Theorem Stock_repr_same_iff (s1 s2 : Stock) :
  Stock_repr s1 = Stock_repr s2 <-> symbol s1 = symbol s2.
Proof.
  unfold Stock_repr. split; [|intros ->; reflexivity].
  intros H. simpl in H. injection H as H.
  exact (string_append_inv_tail _ _ _ H).
Qed.

(** ** Trading and the dividend figures *)

Lemma dividend_set_trades (l : list Trade) (s : Stock) :
  dividend (set_trades l s) = dividend s.
Proof. destruct s; reflexivity. Qed.

(** Trading changes none of the dividend figures: after any calls of
    [record_trade] the dividend, the yield and the P/E ratio at a price are
    what they were. *)
Theorem trading_keeps_dividend_figures
    (calls : list (Z * Z * string * float)) (p : float) (s : Stock) :
  result get_dividend (record_trades calls s) = result get_dividend s /\
  result (calculate_dividend_yield p) (record_trades calls s)
  = result (calculate_dividend_yield p) s /\
  result (calculate_pe_ratio p) (record_trades calls s)
  = result (calculate_pe_ratio p) s.
Proof.
  unfold result.
  rewrite record_trades_run, !get_dividend_run, !dividend_yield_run,
    !pe_ratio_run, dividend_set_trades.
  simpl. auto.
Qed.

(** ** The VWSP as time passes *)

Lemma window_later (now1 now2 : Z) (l : list Trade) :
  now1 <= now2 -> window now1 l = [] -> window now2 l = [].
Proof.
  intros Hle H1. destruct (window now2 l) as [|t w] eqn:E; [reflexivity|].
  assert (Hin : In t (window now1 l)).
  { apply in_window_iff.
    assert (Ht : In t (window now2 l)) by (rewrite E; left; reflexivity).
    apply in_window_iff in Ht. unfold in_window in *. split; [tauto | lia]. }
  rewrite H1 in Hin. contradiction.
Qed.

(** With no new trade, a VWSP that is absent stays absent as time passes,
    on a stock the program built. *)
Theorem vwsp_stays_absent (now1 now2 : Z) (s : Stock) :
  reachable s ->
  now1 <= now2 ->
  result (calculate_volume_weighted_stock_price now1) s = inr None ->
  result (calculate_volume_weighted_stock_price now2) s = inr None.
Proof.
  intros Hr Hle. rewrite !result_vwsp. intros H1.
  assert (Hw : window now1 (trades s) = []).
  { rewrite vwsp_outcome_pos in H1
      by (apply window_incl, reachable_quantities, Hr).
    destruct (window now1 (trades s)) as [|t w]; [reflexivity|].
    destruct (vwsp_converts (t :: w)); discriminate. }
  rewrite (window_later now1 now2 _ Hle Hw). reflexivity.
Qed.

(** ** A NaN price *)

Lemma add_NaN_l (x y : float) : is_NaN x -> is_NaN (x + y).
Proof.
  unfold is_NaN. intros H. rewrite add_spec, H. reflexivity.
Qed.

Lemma add_NaN_r (x y : float) : is_NaN y -> is_NaN (x + y).
Proof.
  unfold is_NaN. intros H. rewrite add_spec, H.
  destruct (Prim2SF x) as [[|]|[|]| |[|] m e]; reflexivity.
Qed.

Lemma mul_NaN_l (x y : float) : is_NaN x -> is_NaN (x * y).
Proof.
  unfold is_NaN. intros H. rewrite mul_spec, H. reflexivity.
Qed.

Lemma div_NaN_l (x y : float) : is_NaN x -> is_NaN (x / y).
Proof.
  unfold is_NaN. intros H. rewrite div_spec, H. reflexivity.
Qed.

Lemma ltb_0_NaN (x : float) : is_NaN x -> (0 <? x)%float = false.
Proof.
  unfold is_NaN. intros H. rewrite ltb_spec, H. reflexivity.
Qed.

Lemma traded_value_NaN (l : list Trade) (acc : float) :
  is_NaN acc \/ (exists t, In t l /\ is_NaN (price t)) ->
  is_NaN (fold_left
            (fun acc t => (acc + price t * nearest_float (quantity t))%float)
            l acc).
Proof.
  revert acc. induction l as [|a l IH]; intros acc H; simpl.
  - destruct H as [H|(t & [] & _)]. exact H.
  - apply IH. destruct H as [H|(t & [<-|Ht] & Hn)].
    + left. apply add_NaN_l, H.
    + left. apply add_NaN_r, mul_NaN_l, Hn.
    + right. exists t. auto.
Qed.

(** A trade with a NaN price, which the constructor accepts, makes the VWSP
    of its stock NaN for as long as the trade is in the window (the
    quantities of the window and their total converting to a float), and
    the index then passes the stock over: registered under a new symbol,
    and read by the index at that reading of the clock, the stock leaves the
    index as it was. *)
Theorem nan_price_poisons_vwsp (now : Z) (s : Stock) (t : Trade) :
  reachable s ->
  In t (trades s) -> in_window now t -> is_NaN (price t) ->
  vwsp_converts (window now (trades s)) = true ->
  (exists v,
     result (calculate_volume_weighted_stock_price now) s = inr (Some v) /\
     is_NaN v) /\
  (forall libm_pow clock ex,
     ~ In (symbol s) (keys ex) ->
     clock (List.length (stocks ex)) = now ->
     result (calculate_gbce_all_share_index libm_pow clock)
       (state_after (add_stock s) ex)
     = result (calculate_gbce_all_share_index libm_pow clock) ex).
Proof.
  intros Hr Hin Hw Hn Hconv.
  assert (Hinw : In t (window now (trades s)))
    by (apply in_window_iff; auto).
  assert (Hnan : is_NaN (traded_value (window now (trades s)))).
  { apply traded_value_NaN. right. exists t. auto. }
  assert (Hv : result (calculate_volume_weighted_stock_price now) s
               = inr (Some (traded_value (window now (trades s))
                            / nearest_float
                                (traded_quantity (window now (trades s))))%float)).
  { rewrite result_vwsp, vwsp_outcome_pos
      by (apply window_incl, reachable_quantities, Hr).
    rewrite Hconv. destruct (window now (trades s)); [contradiction|].
    reflexivity. }
  split.
  - eexists. split; [exact Hv | apply div_NaN_l, Hnan].
  - intros libm_pow clock ex Hfresh Hclock.
    apply index_add_fresh; [exact Hfresh | |]; rewrite Hclock.
    + unfold vwsp_raises. rewrite Hv. reflexivity.
    + simpl. unfold vwsp_of. rewrite Hv.
      rewrite (ltb_0_NaN _ (div_NaN_l _ _ Hnan)). reflexivity.
Qed.

(** ** The further properties at the sample states *)

Lemma get_stock_other_after_add_stock_witness :
  result (get_stock "TEA") (state_after (add_stock sample_pop_new) sample_gbce)
  = result (get_stock "TEA") sample_gbce.
Proof.
  apply (get_stock_other_after_add_stock sample_pop_new sample_gbce "TEA").
  discriminate.
Defined.

Lemma add_stock_keeps_order_witness :
  keys (state_after (add_stock sample_pop_new) sample_gbce) = keys sample_gbce
  /\ stocks (state_after (add_stock sample_ale) sample_gbce)
     = stocks sample_gbce ++ [(symbol sample_ale, sample_ale)].
Proof.
  split.
  - apply (proj1 (add_stock_keeps_order sample_pop_new sample_gbce)).
    right. left. reflexivity.
  - apply (proj2 (add_stock_keeps_order sample_ale sample_gbce)).
    simpl. intuition discriminate.
Defined.

Lemma add_stock_overrides_witness :
  state_after (add_stock sample_pop_new)
    (state_after (add_stock sample_pop_old) sample_gbce)
  = state_after (add_stock sample_pop_new) sample_gbce.
Proof.
  apply (add_stock_overrides sample_pop_old sample_pop_new sample_gbce).
  reflexivity.
Defined.

Lemma index_ignores_silent_stock_witness :
  result (calculate_gbce_all_share_index no_libm (frozen sample_now))
    (state_after (add_stock (CommonStock "ALE" 60 23)) (register four_quarter))
  = result (calculate_gbce_all_share_index no_libm (frozen sample_now))
      (register four_quarter).
Proof.
  apply (index_ignores_silent_stock no_libm (frozen sample_now)
           (CommonStock "ALE" 60 23) (register four_quarter)).
  - simpl. intuition discriminate.
  - reflexivity.
Defined.

Lemma vwsp_reads_recent_quantity_price_witness :
  result (calculate_volume_weighted_stock_price sample_now) sample_ale
  = result (calculate_volume_weighted_stock_price sample_now) sample_ale_twin.
Proof.
  apply (vwsp_reads_recent_quantity_price sample_now sample_ale
           sample_ale_twin).
  reflexivity.
Defined.

Lemma index_reads_recent_quantity_price_witness :
  result (calculate_gbce_all_share_index no_libm (frozen sample_now))
    (register [sample_ale])
  = result (calculate_gbce_all_share_index no_libm (frozen sample_now))
      (register [sample_ale_twin]).
Proof.
  apply (index_reads_recent_quantity_price no_libm (frozen sample_now)
           (register [sample_ale]) (register [sample_ale_twin])).
  - reflexivity.
  - intros [|[|k]] s1 s2 H1 H2; try discriminate.
    injection H1 as <-. injection H2 as <-. reflexivity.
Defined.

Lemma reachable_trades_accepted_witness :
  Forall (fun t =>
            Trade_init (timestamp t) (quantity t) (indicator t) (price t)
            = inr t)
    (trades sample_ale).
Proof.
  exact (reachable_trades_accepted sample_ale reachable_sample_ale).
Defined.

Lemma vwsp_present_after_record_trade_witness :
  result (calculate_volume_weighted_stock_price
            (sample_now + timedelta_minutes 5))
    (state_after (record_trade sample_now 50 BUY 65)
       (CommonStock "ALE" 60 23))
  = inr (Some ((0 + 65 * 50) / 50)%float).
Proof.
  refine (proj2 (proj2 (vwsp_present_after_record_trade sample_now
           (sample_now + timedelta_minutes 5) 50 BUY 65
           (CommonStock "ALE" 60 23) _ _ _ _))).
  - apply reach_common.
  - reflexivity.
  - reflexivity.
  - discriminate.
Defined.

Lemma backdated_trade_leaves_vwsp_witness :
  result (calculate_volume_weighted_stock_price sample_now)
    (set_trades
       (backdate 1 (sample_now - timedelta_minutes 6) (trades sample_ale))
       sample_ale)
  = result (calculate_volume_weighted_stock_price sample_now)
      (set_trades (drop_nth 1 (trades sample_ale)) sample_ale).
Proof.
  apply (backdated_trade_leaves_vwsp sample_now
           (sample_now - timedelta_minutes 6) 1 sample_ale).
  reflexivity.
Defined.

Lemma vwsp_stays_absent_witness :
  result (calculate_volume_weighted_stock_price
            (sample_now + timedelta_minutes 20)) sample_ale
  = inr None.
Proof.
  apply (vwsp_stays_absent (sample_now + timedelta_minutes 10)
           (sample_now + timedelta_minutes 20) sample_ale).
  - exact reachable_sample_ale.
  - discriminate.
  - reflexivity.
Defined.

Lemma nan_price_poisons_vwsp_witness :
  result (calculate_gbce_all_share_index no_libm (frozen sample_now))
    (state_after (add_stock sample_nan_stock) (register four_quarter))
  = result (calculate_gbce_all_share_index no_libm (frozen sample_now))
      (register four_quarter).
Proof.
  refine (proj2 (nan_price_poisons_vwsp sample_now sample_nan_stock
                   (mkTrade sample_now 1 BUY nan) _ _ _ _ _)
            no_libm (frozen sample_now) (register four_quarter) _ _).
  - apply reach_record, reach_common.
  - left. reflexivity.
  - discriminate.
  - reflexivity.
  - reflexivity.
  - simpl. intuition discriminate.
  - reflexivity.
Defined.
